(* ===== verification/_CoqProject ===== *)
-Q . S2P
Prelude.v
PyStr.v
Tables.v
Tokenizer.v
Tokens.v
LexSpec.v
Loader.v
Emitter.v
Driver.v
