(* ===== verification/Prelude.v ===== *)
(** * A verification library for the Jack syntax analyzer (tokenizer stage)

    The repository holds one Python program,
    [src/JaskaranSingh-Syntax_Analyzer.py], the tokenizer stage of a
    Nand2Tetris "Jack" syntax analyzer.  It has three classes:

    - [JackTokenizer] (lines 31-156): [load_file] turns the source text
      into a [deque] of whitespace-free fragments (line comments cut at
      [//], block comments blanked line by line); [advance] pops the
      front fragment, classifies its leading characters (symbol, string
      constant, integer constant, identifier or keyword) and pushes the
      unconsumed rest back at the front; [keyword_dict] and [symbol_set]
      are its constant tables.
    - [CompilationEngine] (lines 160-186): opens the output file
      [<name>T.xml], writes [<tokens>], and renders every token as one
      indented, XML-escaped line; [close] writes [</tokens>].
    - [JackAnalyzer] (lines 2-29): checks the file name, then drives the
      tokenizer and forwards each token to the engine.

    The three interact through plain method calls: the analyzer owns one
    tokenizer and one engine per file; the tokenizer's only state is its
    fragment queue and current token; the engine's only state is its
    output handle and indentation counter.  As written the program
    never gets past the constructors: [deque] is not imported, the
    indentation is never set, and the output file is closed when the
    engine's constructor returns.  The development models the code as
    written and proves these failures, and it also proves what the
    loop and the engine do from the states the constructors were meant
    to produce.

    ** Files of the development (in dependency order)

    - [Prelude] (this file): the Python exception type [exn]; the result
      type [result] (a value, a raised exception, or fuel exhausted)
      with its bind and [let*] notation in [result_scope]; the monad
      [stm] of state with exceptions ([let!] in [stm_scope]), in which
      the store of files survives an exception, with [for_each] for a
      Python [for] loop; the
      [result_inv] tactic and the hint databases [pystr] (rewriting)
      and [jack] (resolution).
    - [PyStr]: the Python [str] operations the program calls, on Rocq's
      [string]: [s[:i]], [s[i:]], [s[0]], [strip], [split()],
      [split('\n')], [split(sep)[0]], [replace], [lower], [in] on
      strings, and [int(s)] as a parser to [Z] ([py_int]); with their
      slicing, character-membership, splitting and joining lemmas
      ([sep.join(s.split(sep)) == s], [''.join(s.split())]).
    - [Tables]: [keyword_dict] (a [gmap string keyword]), [symbol_set]
      (a [gset ascii]), the two-character operator list of line 49 and
      the token-type enumeration.
    - [Tokenizer] (Module [JackTokenizer]): the tokenizer state as a
      record, [advance] (lines 43-97) with its string and integer
      loops, and the accessors of lines 102-112.  Theorems: the
      behaviour of the branches of [advance], errors included, and the
      kind/payload consistency of every token.
    - [Tokens] (Module [TokenStream]): the loop of lines 17-18 as the
      token stream [tokens], and the reachability relation [reach] of
      successful [advance] steps.  Theorems: the queue invariant in
      every reachable state, fuel adequacy and non-termination.
    - [LexSpec]: the specification's scanner as an inductive relation
      [lex_step] (one token per step, longest match first) and the
      refinement theorems: every [advance] is a [lex_step], and every
      [lex_step] but one is taken by [advance].
    - [Loader] (Module [Loader]): [JackTokenizer.load_file] (lines
      119-140), reading in text mode with universal newlines.
      Theorems: the words it produces satisfy the queue invariant; when
      no stripped line starts with [/*] or contains [//] (in particular
      on a source without a slash) they are exactly [str.split()] of
      the text, so a block comment that does not start its line is kept
      word by word; the block-comment state machine; a [//] inside a
      block-comment line keeps the comment open past its [*/]; it
      always raises.
    - [Emitter] (Module [CompilationEngine]): the engine record over a
      store of files, [write], the escaping, [write_token], [close] and
      [__init__] with its [with] block (lines 160-186); the interface
      [TokenWriter] that the driver is written against, with the engine
      as its instance.  Theorems: the escaping is the one-pass XML
      escaping, is inverted by decoding, leaves no raw angle bracket
      and at most quintuples the length; the full behaviour of
      [write_token] and [close]; [__init__] always raises; the [with]
      block closes the file; the output file name.
    - [Driver] (Module [JackAnalyzer]): [JackAnalyzer] (lines 2-29),
      [JackTokenizer.__init__] and the main block.  Theorems: with an
      engine the loop writes one line per token of [tokens] and the
      footer; composed with the loader, the token values of a source
      without comments or strings are the source without its
      whitespace; the program as written never produces output.

    ** Fuel

    The integer scan of [advance] (lines 78-80) is a [while] loop that
    does not terminate when the fragment consists only of digits: the
    prefix [next_token[:int_idx+1]] stops growing at the end of the
    fragment.  It is modelled with a fuel argument; the result
    [OutOfFuel] stands for non-termination.  The string loop of lines
    64-73 pops a fragment per iteration and is structural on the
    queue.  The loop of lines 17-28 ([tokens], [analyze_loop]) takes
    fuel too, and passes it to [advance].  Fuel above [queue_size]
    (the number of characters in the deque) is enough: each
    successful [advance] removes at least one character, and the
    integer scan needs one unit more than the length of its digit run.
    [tokens_fuel_adequate] proves that with such fuel [OutOfFuel] only
    arises from an all-digit fragment, and [tokens_diverges] that from
    there every fuel runs out: the bound is exact, and [OutOfFuel]
    means that the Python program does not terminate.

    ** Characters

    A Python character is modelled as an [ascii] of Rocq's standard
    library, i.e. a code point below 256; [py_isspace], [py_lower] and
    [py_int] follow CPython on that range.  Code points from 256 upwards
    are not modelled.

    ** Not modelled

    The operating-system side of file access ([open] failing for
    other reasons than a missing file, encodings)
    and [print] are not modelled: a file is a string in a store, and
    [print] has no observable effect on the state.  The files that an
    exception leaves behind are modelled (the store is threaded through
    [stm]); the Python objects after an exception are not, since no
    code of the program catches one.  The method [token_type()] is
    modelled as called ([token_type_method]): the attribute of the same
    name shadows it, so the call raises [TypeError]. *)

From stdpp Require Export base list gmap strings.
From Stdlib Require Export Ascii String ZArith Lia.

(** ** Python exceptions raised by the program *)

Inductive exn : Type :=
| IndexError       (** [deque.popleft()] on an empty deque, [s[0]] on [''] *)
| NameError        (** an unbound global name ([deque]) *)
| AttributeError   (** reading an attribute that was never set *)
| ValueError       (** [int()] of a non-numeral, a write to a closed file *)
| TypeError        (** iterating over [None] *)
| KeyError         (** a missing dictionary key *)
| OSError.         (** [open()] of a file that cannot be opened *)

#[export] Instance exn_eq_dec : EqDecision exn.
Proof. solve_decision. Defined.

(** ** Results: a value, an exception, or exhausted fuel *)

Inductive result (A : Type) : Type :=
| Ok (a : A)
| Raise (e : exn)
| OutOfFuel.
Arguments Ok {A} a.
Arguments Raise {A} e.
Arguments OutOfFuel {A}.

Definition rbind {A B} (m : result A) (k : A -> result B) : result B :=
  match m with
  | Ok a => k a
  | Raise e => Raise e
  | OutOfFuel => OutOfFuel
  end.

Definition rmap {A B} (f : A -> B) (m : result A) : result B :=
  rbind m (fun a => Ok (f a)).

Declare Scope result_scope.
Delimit Scope result_scope with result.
Notation "'let*' x ':=' m 'in' k" := (rbind m (fun x => k))
  (at level 10, x name, m at level 100, k at level 200) : result_scope.
Notation "'let*' ' p ':=' m 'in' k" :=
  (rbind m (fun x => match x with p => k end))
  (at level 10, p pattern, m at level 100, k at level 200) : result_scope.

(** [is_ok r]: the computation returned normally. *)
Definition is_ok {A} (r : result A) : bool :=
  match r with Ok _ => true | _ => false end.

(** ** Generic lemmas on [result] *)

Lemma rbind_Ok_inv {A B} (m : result A) (k : A -> result B) b :
  rbind m k = Ok b -> exists a, m = Ok a /\ k a = Ok b.
Proof. destruct m; simpl; [eauto | discriminate | discriminate]. Qed.

Lemma rbind_Raise_inv {A B} (m : result A) (k : A -> result B) e :
  rbind m k = Raise e -> m = Raise e \/ exists a, m = Ok a /\ k a = Raise e.
Proof. destruct m; simpl; [eauto | injection 1 as ->; auto | discriminate]. Qed.

(** [Ok] is injective; unlike [injection], applying this lemma never
    normalises the two sides. *)
Lemma Ok_inj {A} (a b : A) : Ok a = Ok b -> a = b.
Proof. by intros [= ->]. Qed.

Lemma rbind_Ok {A B} (a : A) (k : A -> result B) : rbind (Ok a) k = k a.
Proof. reflexivity. Qed.

Lemma rbind_assoc {A B C} (m : result A) (k : A -> result B) (h : B -> result C) :
  rbind (rbind m k) h = rbind m (fun a => rbind (k a) h).
Proof. destruct m; reflexivity. Qed.

(** ** State with exceptions

    [stm S A]: a computation over a state [S] that survives exceptions,
    as the file system survives a Python exception.  The engine and the
    driver thread the store of files through it. *)

Definition stm (S A : Type) : Type := S -> S * result A.

Definition sret {S A} (a : A) : stm S A := fun s => (s, Ok a).
Definition sraise {S A} (e : exn) : stm S A := fun s => (s, Raise e).

(** Lift a pure result into [stm]. *)
Definition slift {S A} (r : result A) : stm S A := fun s => (s, r).

Definition sbind {S A B} (m : stm S A) (k : A -> stm S B) : stm S B :=
  fun s => let '(s', r) := m s in
           match r with
           | Ok a => k a s'
           | Raise e => (s', Raise e)
           | OutOfFuel => (s', OutOfFuel)
           end.

Declare Scope stm_scope.
Delimit Scope stm_scope with stm.
Notation "'let!' x ':=' m 'in' k" := (sbind m (fun x => k))
  (at level 10, x name, m at level 100, k at level 200) : stm_scope.

Lemma sbind_ret {S A B} (a : A) (k : A -> stm S B) s : sbind (sret a) k s = k a s.
Proof. reflexivity. Qed.

Lemma sbind_Ok {S A B} (m : stm S A) (k : A -> stm S B) s s' a :
  m s = (s', Ok a) -> sbind m k s = k a s'.
Proof. unfold sbind. by intros ->. Qed.

Lemma sbind_Raise {S A B} (m : stm S A) (k : A -> stm S B) s s' e :
  m s = (s', Raise e) -> sbind m k s = (s', Raise e).
Proof. unfold sbind. by intros ->. Qed.

(** Read the state without changing it. *)
Definition sread {S A} (f : S -> result A) : stm S A := fun s => (s, f s).

(** [for x in l: f(x)]. *)
Fixpoint for_each {S A} (f : A -> stm S unit) (l : list A) : stm S unit :=
  match l with
  | [] => sret tt
  | x :: l' => sbind (f x) (fun _ => for_each f l')
  end.

(** ** Hint databases and tactics shared by the development *)

Create HintDb jack discriminated.
Create Rewrite HintDb pystr.
#[export] Hint Rewrite @rbind_Ok : pystr.

(** Close a decidable closed goal ([x ∈ s], [m !! k = Some v], ...) by
    evaluating its decision procedure. *)
Ltac decide_by_compute := apply (bool_decide_unpack _); vm_compute; exact I.

(** Case on every [Nat.leb]/[Nat.eqb] test in sight and finish with
    arithmetic: the character-class lemmas are proved this way. *)
Ltac bool_arith :=
  repeat match goal with
  | H : context [Nat.leb ?a ?b] |- _ => destruct (Nat.leb_spec a b)
  | |- context [Nat.leb ?a ?b] => destruct (Nat.leb_spec a b)
  | H : context [Nat.eqb ?a ?b] |- _ => destruct (Nat.eqb_spec a b)
  | |- context [Nat.eqb ?a ?b] => destruct (Nat.eqb_spec a b)
  end; simpl in *; try lia; try congruence.

(** Split an equation [rbind m k = Ok b] into its two halves. *)
Ltac result_inv :=
  repeat match goal with
  | H : rbind ?m _ = Ok _ |- _ =>
      let a := fresh "a" in let Ha := fresh "Ha" in
      apply rbind_Ok_inv in H as (a & Ha & H)
  | H : Ok _ = Ok _ |- _ => injection H as H
  | H : Ok _ = Raise _ |- _ => discriminate H
  | H : Raise _ = Ok _ |- _ => discriminate H
  | H : OutOfFuel = Ok _ |- _ => discriminate H
  | H : Ok _ = OutOfFuel |- _ => discriminate H
  end.

(** ** Generic lemmas on lists and booleans used across the files *)

Lemma Forall_cons_iff' {A} (P : A -> Prop) x l :
  Forall P (x :: l) <-> P x /\ Forall P l.
Proof. split; [inversion 1; auto | intros []; constructor; auto]. Qed.

Lemma negb_true_iff' b : negb b = true <-> b = false.
Proof. destruct b; simpl; intuition congruence. Qed.

