(* ===== verification/PyStr.v ===== *)
(** * Python [str] operations used by the analyzer

    Each definition renders the CPython behaviour of one [str]
    operation the program calls, on Rocq's [string] (characters are code
    points below 256, see the header of [Prelude]):
    [s[:i]] is [slice_to], [s[i:]] is [slice_from], [s[0]] is
    [char_at0], [str.isspace] / [str.isdigit] on one character are
    [py_isspace] / [py_isdigit], [strip] is [strip], [s.split()] is
    [split_ws], [s.split(c)] for a one-character separator is
    [split_char], [s.split(sep)[0]] is [split_head], [s.replace(c, t)]
    for a one-character [c] is [replace_char], [s.lower()] is
    [py_lower], [sub in s] is [py_contains] and [int(s)] is [py_int].
    The lemmas relate slicing, concatenation and character predicates. *)

From S2P Require Import Prelude.
Local Open Scope string_scope.

(** ** Character classes *)

(** The double quote, code point 34. *)
Definition quote_char : ascii := ascii_of_nat 34.

(** [c.isspace()] for code points below 256: tab to carriage return,
    the four separators 0x1c-0x1f, space, NEL (0x85) and NBSP (0xa0). *)
Definition py_isspace (c : ascii) : bool :=
  let n := nat_of_ascii c in
  (((9 <=? n) && (n <=? 13)) || ((28 <=? n) && (n <=? 32))
   || (n =? 133) || (n =? 160))%nat.

(** A decimal digit in the sense of [int()]: below 256 only ['0'-'9']. *)
Definition py_isdigit (c : ascii) : bool :=
  let n := nat_of_ascii c in ((48 <=? n) && (n <=? 57))%nat.

Definition not_space (c : ascii) : bool := negb (py_isspace c).

(** ** Character predicates over a whole string *)

Fixpoint str_forallb (p : ascii -> bool) (s : string) : bool :=
  match s with
  | EmptyString => true
  | String c s' => p c && str_forallb p s'
  end.

Fixpoint str_existsb (p : ascii -> bool) (s : string) : bool :=
  match s with
  | EmptyString => false
  | String c s' => p c || str_existsb p s'
  end.

(** ** Indexing and slicing *)

(** [s[:i]] for [i >= 0]. *)
Fixpoint slice_to (s : string) (i : nat) {struct i} : string :=
  match i, s with
  | O, _ => EmptyString
  | _, EmptyString => EmptyString
  | S i', String c s' => String c (slice_to s' i')
  end.

(** [s[i:]] for [i >= 0]. *)
Fixpoint slice_from (s : string) (i : nat) {struct i} : string :=
  match i, s with
  | O, _ => s
  | _, EmptyString => EmptyString
  | S i', String _ s' => slice_from s' i'
  end.

(** [s[0]]: [IndexError] on the empty string. *)
Definition char_at0 (s : string) : result ascii :=
  match s with
  | EmptyString => Raise IndexError
  | String c _ => Ok c
  end.

(** The index of the first character satisfying [p], as found by
    [for i, el in enumerate(s): if p(el): ...]. *)
Fixpoint find_index (p : ascii -> bool) (s : string) : option nat :=
  match s with
  | EmptyString => None
  | String c s' => if p c then Some 0 else option_map S (find_index p s')
  end.

(** ** Stripping and splitting *)

Fixpoint lstrip (s : string) : string :=
  match s with
  | EmptyString => EmptyString
  | String c s' => if py_isspace c then lstrip s' else s
  end.

Fixpoint rstrip (s : string) : string :=
  match s with
  | EmptyString => EmptyString
  | String c s' =>
      let r := rstrip s' in
      if String.eqb r "" && py_isspace c then EmptyString else String c r
  end.

(** [s.strip()] with no argument. *)
Definition strip (s : string) : string := rstrip (lstrip s).

(** [s.split(sep)] for a one-character separator: empty pieces kept. *)
Fixpoint split_char (sep : ascii) (s : string) : list string :=
  match s with
  | EmptyString => [EmptyString]
  | String c s' =>
      let rest := split_char sep s' in
      if Ascii.eqb c sep then EmptyString :: rest
      else match rest with
           | [] => [String c EmptyString]
           | w :: ws => String c w :: ws
           end
  end.

(** [s.split(sep)[0]] for a non-empty separator: the text before the
    first occurrence of [sep], or all of [s]. *)
Fixpoint split_head (sep s : string) : string :=
  match s with
  | EmptyString => EmptyString
  | String c s' => if String.prefix sep s then EmptyString
                   else String c (split_head sep s')
  end.

(** [s.split()] with no argument: maximal runs of non-whitespace, in
    order; [cur] is the run being read. *)
Fixpoint split_ws_aux (cur s : string) : list string :=
  match s with
  | EmptyString => if String.eqb cur "" then [] else [cur]
  | String c s' =>
      if py_isspace c then
        (if String.eqb cur "" then [] else [cur]) ++ split_ws_aux "" s'
      else split_ws_aux (cur ++ String c "") s'
  end.

Definition split_ws (s : string) : list string := split_ws_aux "" s.

(** ** Replacing, case, containment *)

(** [s.replace(old, new)] for a one-character [old]. *)
Fixpoint replace_char (old : ascii) (new s : string) : string :=
  match s with
  | EmptyString => EmptyString
  | String c s' =>
      (if Ascii.eqb c old then new else String c EmptyString)
      ++ replace_char old new s'
  end.

(** [c.lower()] below 256: ['A'-'Z'] and the Latin-1 capitals
    0xc0-0xde except the multiplication sign 0xd7. *)
Definition py_lower_char (c : ascii) : ascii :=
  let n := nat_of_ascii c in
  if (((65 <=? n) && (n <=? 90))
      || ((192 <=? n) && (n <=? 222) && negb (n =? 215)))%nat
  then ascii_of_nat (n + 32) else c.

Fixpoint py_lower (s : string) : string :=
  match s with
  | EmptyString => EmptyString
  | String c s' => String (py_lower_char c) (py_lower s')
  end.

(** [sub in s] for strings. *)
Fixpoint py_contains (sub s : string) : bool :=
  String.prefix sub s
  || match s with
     | EmptyString => false
     | String _ s' => py_contains sub s'
     end.

(** ** [int(s)] on a string *)

Definition digit_value (c : ascii) : Z := Z.of_nat (nat_of_ascii c) - 48.

(** Digits after the first one; a single [_] may separate two digits. *)
Fixpoint digits_aux (acc : Z) (after_us : bool) (s : string) : option Z :=
  match s with
  | EmptyString => if after_us then None else Some acc
  | String c s' =>
      if py_isdigit c then digits_aux (acc * 10 + digit_value c) false s'
      else if Ascii.eqb c "_" && negb after_us then digits_aux acc true s'
      else None
  end.

Definition parse_digits (s : string) : option Z :=
  match s with
  | String c s' => if py_isdigit c then digits_aux (digit_value c) false s' else None
  | EmptyString => None
  end.

(** [int(s)]: surrounding whitespace stripped, an optional sign, then
    decimal digits with single underscores between digits; [None] is the
    [ValueError]. *)
Definition py_int (s : string) : option Z :=
  match strip s with
  | String c r =>
      if Ascii.eqb c "-" then option_map Z.opp (parse_digits r)
      else if Ascii.eqb c "+" then parse_digits r
      else parse_digits (String c r)
  | EmptyString => None
  end.

(** ** Lemmas *)

(** stdpp declares [String.append] [simpl never]; these two equations
    replace [simpl] on appends. *)
Lemma append_cons c s t : String c s ++ t = String c (s ++ t).
Proof. reflexivity. Qed.

Lemma append_nil_l t : "" ++ t = t.
Proof. reflexivity. Qed.

Lemma append_nil_r s : s ++ "" = s.
Proof. induction s; [done|]. rewrite append_cons. by f_equal. Qed.

Lemma append_assoc s t u : s ++ (t ++ u) = (s ++ t) ++ u.
Proof. induction s; [done|]. rewrite !append_cons. by f_equal. Qed.

#[export] Hint Rewrite append_cons append_nil_l append_nil_r : pystr.

Lemma slice_to_from s i : slice_to s i ++ slice_from s i = s.
Proof.
  revert i; induction s as [|c s IH]; intros [|i]; simpl; try reflexivity.
  rewrite append_cons; f_equal; apply IH.
Qed.

Lemma length_append s t : String.length (s ++ t) = String.length s + String.length t.
Proof. induction s; [reflexivity|]. rewrite ?append_cons; simpl; auto. Qed.

Lemma length_slice_from s i : String.length (slice_from s i) = String.length s - i.
Proof. revert i; induction s as [|c s IH]; intros [|i]; simpl; auto. Qed.

Lemma length_slice_to s i : String.length (slice_to s i) = Nat.min i (String.length s).
Proof. revert i; induction s as [|c s IH]; intros [|i]; simpl; auto. Qed.

Lemma slice_from_app s t : slice_from (s ++ t) (String.length s) = t.
Proof. induction s; [reflexivity|]. rewrite ?append_cons; simpl; auto. Qed.

Lemma slice_to_app s t : slice_to (s ++ t) (String.length s) = s.
Proof. induction s; [by destruct t|]. rewrite ?append_cons; simpl. by f_equal. Qed.

Lemma slice_from_S c s i : slice_from (String c s) (S i) = slice_from s i.
Proof. reflexivity. Qed.

Lemma slice_from_ge s i : String.length s <= i -> slice_from s i = "".
Proof. revert i; induction s; intros [|i]; simpl; auto with lia. Qed.

Lemma slice_from_slice_from s i j : slice_from (slice_from s i) j = slice_from s (i + j).
Proof. revert i; induction s; intros [|i]; simpl; auto. by destruct j. Qed.

Lemma str_forallb_app p s t :
  str_forallb p (s ++ t) = str_forallb p s && str_forallb p t.
Proof. induction s; [reflexivity|]. rewrite ?append_cons; simpl. by rewrite IHs, andb_assoc. Qed.

Lemma str_forallb_slice_from p s i :
  str_forallb p s = true -> str_forallb p (slice_from s i) = true.
Proof.
  rewrite <- (slice_to_from s i) at 1. rewrite str_forallb_app.
  by intros [_ ?]%andb_prop.
Qed.

Lemma str_forallb_slice_to p s i :
  str_forallb p s = true -> str_forallb p (slice_to s i) = true.
Proof.
  rewrite <- (slice_to_from s i) at 1. rewrite str_forallb_app.
  by intros [? _]%andb_prop.
Qed.

(** [find_index] splits the string at the first match. *)
Lemma find_index_Some p s i :
  find_index p s = Some i ->
  exists c, slice_from s i = String c (slice_from s (S i)) /\ p c = true /\
            str_forallb (fun c => negb (p c)) (slice_to s i) = true.
Proof.
  revert i; induction s as [|c s IH]; intros i; simpl; [discriminate|].
  destruct (p c) eqn:Hp.
  - intros [= <-]. simpl. exists c. rewrite Hp. repeat split; auto.
  - destruct (find_index p s) as [j|] eqn:E; simpl; [|discriminate].
    intros [= <-]. destruct (IH j eq_refl) as (c' & H1 & H2 & H3).
    exists c'. simpl. rewrite Hp, H3. auto.
Qed.

Lemma find_index_None p s :
  find_index p s = None -> str_forallb (fun c => negb (p c)) s = true.
Proof.
  induction s as [|c s IH]; simpl; [done|].
  destruct (p c); simpl; [discriminate|].
  destruct (find_index p s); simpl; [discriminate | auto].
Qed.

Lemma find_index_lt p s i : find_index p s = Some i -> i < String.length s.
Proof.
  revert i; induction s as [|c s IH]; intros i; simpl; [discriminate|].
  destruct (p c); [intros [= <-]; lia|].
  destruct (find_index p s) as [j|]; simpl; [|discriminate].
  intros [= <-]. specialize (IH j eq_refl). lia.
Qed.

Lemma slice_to_app_le s t j :
  j <= String.length s -> slice_to (s ++ t) j = slice_to s j.
Proof.
  revert j; induction s as [|c s IH]; intros [|j] Hj; simpl in *; try lia; auto.
  rewrite ?append_cons; simpl. f_equal. apply IH. lia.
Qed.

Lemma slice_to_app_add s t j : slice_to (s ++ t) (String.length s + j) = s ++ slice_to t j.
Proof. induction s as [|c s IH]; [reflexivity|]. rewrite !append_cons; simpl. by f_equal. Qed.

Lemma slice_to_ge s i : String.length s <= i -> slice_to s i = s.
Proof. revert i; induction s; intros [|i]; simpl; intros; f_equal; auto with lia. Qed.

Lemma str_forallb_ext p p' s :
  (forall c, p c = p' c) -> str_forallb p s = str_forallb p' s.
Proof. intros H; induction s; simpl; [done|]. by rewrite H, IHs. Qed.

Lemma str_forallb_impl (p p' : ascii -> bool) s :
  (forall c, p c = true -> p' c = true) -> str_forallb p s = true -> str_forallb p' s = true.
Proof.
  intros Hp. induction s as [|c s IH]; [done|]. simpl. intros [Hc Hs]%andb_prop.
  by rewrite Hp, IH.
Qed.

Lemma str_forallb_single p c : str_forallb p (String c "") = p c.
Proof. cbn. apply andb_true_r. Qed.

(** ** Character classes are disjoint *)

Definition all_digits (s : string) : bool := str_forallb py_isdigit s.

Lemma digit_not_space c : py_isdigit c = true -> py_isspace c = false.
Proof. unfold py_isdigit, py_isspace. bool_arith. Qed.

Lemma all_digits_not_space s : all_digits s = true -> str_forallb not_space s = true.
Proof.
  induction s as [|c s IH]; simpl; [done|].
  intros [Hc Hs]%andb_prop. rewrite IH by exact Hs. unfold not_space. by rewrite digit_not_space.
Qed.

(** ** [strip] on text without surrounding whitespace *)

(** [ends_ok s]: [s] is empty or its last character is not whitespace. *)
Fixpoint ends_ok (s : string) : bool :=
  match s with
  | EmptyString => true
  | String c EmptyString => not_space c
  | String _ s' => ends_ok s'
  end.

Lemma rstrip_ends_ok s : ends_ok s = true -> rstrip s = s.
Proof.
  induction s as [|c s IH]; [done|]. intros H. simpl.
  destruct s as [|c' s'].
  - simpl in H. unfold not_space in H. destruct (py_isspace c); [discriminate|].
    by rewrite andb_false_r.
  - rewrite IH by exact H. reflexivity.
Qed.

Lemma ends_ok_app s t : t <> "" -> ends_ok (s ++ t) = ends_ok t.
Proof.
  intros Ht. induction s as [|c s IH]; [reflexivity|]. rewrite append_cons.
  destruct s as [|c' s']; simpl.
  - by destruct t.
  - rewrite <- IH. reflexivity.
Qed.

Lemma ends_ok_no_space s : str_forallb not_space s = true -> ends_ok s = true.
Proof.
  induction s as [|c s IH]; [done|]. simpl. intros [Hc Hs]%andb_prop.
  destruct s; [exact Hc | exact (IH Hs)].
Qed.

Lemma lstrip_head c s : py_isspace c = false -> lstrip (String c s) = String c s.
Proof. simpl. by intros ->. Qed.

Lemma strip_no_space s : str_forallb not_space s = true -> strip s = s.
Proof.
  intros H. unfold strip. destruct s as [|c s']; [reflexivity|].
  pose proof H as H'. simpl in H'. apply andb_prop in H' as [Hc _].
  unfold not_space in Hc. rewrite lstrip_head by (by destruct (py_isspace c)).
  by apply rstrip_ends_ok, ends_ok_no_space.
Qed.

(** [strip] leaves a text alone whose first and last characters are
    not whitespace. *)
Lemma strip_id c s :
  py_isspace c = false -> ends_ok (String c s) = true -> strip (String c s) = String c s.
Proof. intros Hc He. unfold strip. rewrite lstrip_head by exact Hc. by apply rstrip_ends_ok. Qed.

(** ** [int()] on digit strings *)

Fixpoint digits_value (acc : Z) (s : string) : Z :=
  match s with
  | EmptyString => acc
  | String c s' => digits_value (acc * 10 + digit_value c) s'
  end.

Lemma digits_aux_digits acc d r :
  all_digits d = true -> digits_aux acc false (d ++ r) = digits_aux (digits_value acc d) false r.
Proof.
  revert acc; induction d as [|c d IH]; intros acc; [reflexivity|].
  simpl. intros [Hc Hd]%andb_prop. rewrite ?append_cons. simpl. rewrite Hc. by apply IH.
Qed.

Lemma digit_not_sign c : py_isdigit c = true -> Ascii.eqb c "-" = false /\ Ascii.eqb c "+" = false.
Proof.
  intros H. split; apply Ascii.eqb_neq; intros ->; discriminate H.
Qed.

(** A non-empty run of digits parses to its decimal value. *)
Lemma py_int_digits d :
  d <> "" -> all_digits d = true -> py_int d = Some (digits_value 0 d).
Proof.
  intros Hne Hd. unfold py_int. rewrite strip_no_space by (by apply all_digits_not_space).
  destruct d as [|c d']; [done|].
  destruct (andb_prop _ _ Hd : py_isdigit c = true /\ all_digits d' = true) as [Hc Hd'].
  destruct (digit_not_sign c Hc) as [-> ->]. cbn [parse_digits]. rewrite Hc.
  pose proof (digits_aux_digits (digit_value c) d' "" Hd') as E.
  rewrite append_nil_r in E. rewrite E. reflexivity.
Qed.

(** A run of digits followed by one more non-blank character parses iff
    that character is a digit: a trailing [_] or any other character is
    a [ValueError]. *)
Lemma py_int_digits_snoc d c :
  d <> "" -> all_digits d = true -> py_isspace c = false ->
  is_Some (py_int (d ++ String c "")) <-> py_isdigit c = true.
Proof.
  intros Hne Hd Hc. unfold py_int.
  rewrite strip_no_space.
  2:{ rewrite str_forallb_app. apply andb_true_intro; split.
      - by apply all_digits_not_space.
      - simpl. unfold not_space. by rewrite Hc. }
  destruct d as [|c0 d']; [done|].
  destruct (andb_prop _ _ Hd : py_isdigit c0 = true /\ all_digits d' = true) as [Hc0 Hd'].
  rewrite append_cons. destruct (digit_not_sign c0 Hc0) as [-> ->]. cbn [parse_digits].
  rewrite Hc0, digits_aux_digits by exact Hd'. simpl.
  destruct (py_isdigit c); [split; eauto|].
  destruct (Ascii.eqb c "_"); simpl; split; intros H; inversion H; discriminate.
Qed.

Lemma find_index_app p w rest :
  str_forallb (fun c => negb (p c)) w = true ->
  find_index p (w ++ rest) = option_map (Nat.add (String.length w)) (find_index p rest).
Proof.
  induction w as [|c w IH]; simpl.
  - intros _. rewrite append_nil_l. by destruct (find_index p rest).
  - intros [Hc Hw]%andb_prop. rewrite ?append_cons. simpl.
    destruct (p c); [discriminate|]. rewrite IH by exact Hw.
    by destruct (find_index p rest).
Qed.

Lemma find_index_none_of p s :
  str_forallb (fun c => negb (p c)) s = true -> find_index p s = None.
Proof.
  intros H. rewrite <- (append_nil_r s), find_index_app by exact H. reflexivity.
Qed.

Lemma slice_from_app_add s t j : slice_from (s ++ t) (String.length s + j) = slice_from t j.
Proof. induction s; [reflexivity|]. rewrite ?append_cons. simpl. auto. Qed.

(** [strip] keeps a character property: it returns a substring. *)
Lemma str_forallb_lstrip p s : str_forallb p s = true -> str_forallb p (lstrip s) = true.
Proof.
  induction s as [|c s IH]; simpl; [done|]. intros H.
  destruct (py_isspace c); [|done]. apply IH. by apply andb_prop in H as [].
Qed.

Lemma str_forallb_rstrip p s : str_forallb p s = true -> str_forallb p (rstrip s) = true.
Proof.
  induction s as [|c s IH]; simpl; [done|]. intros [Hc Hs]%andb_prop.
  destruct (_ && _); simpl; [done|]. by rewrite Hc, IH.
Qed.

Lemma str_forallb_strip p s : str_forallb p s = true -> str_forallb p (strip s) = true.
Proof. intros H. by apply str_forallb_rstrip, str_forallb_lstrip. Qed.

(** Every string is a run of digits, possibly followed by a non-digit
    and the rest. *)
Lemma digit_run_split s :
  all_digits s = true \/
  exists d c r, s = d ++ String c r /\ all_digits d = true /\ py_isdigit c = false.
Proof.
  induction s as [|c s [IH|(d & c' & r & -> & Hd & Hc')]].
  - by left.
  - destruct (py_isdigit c) eqn:Hc; [left; unfold all_digits; simpl; by rewrite Hc|].
    right. exists "", c, s. auto.
  - destruct (py_isdigit c) eqn:Hc.
    + right. exists (String c d), c', r. unfold all_digits in *; simpl. by rewrite Hc, Hd.
    + right. exists "", c, (d ++ String c' r). auto.
Qed.

(** [int()] of one character succeeds exactly on a digit. *)
Lemma py_int_single c : is_Some (py_int (String c "")) <-> py_isdigit c = true.
Proof.
  unfold py_int, strip. simpl. destruct (py_isspace c) eqn:Hs; simpl.
  - split; [by intros []|]. intros Hd. by rewrite digit_not_space in Hs.
  - rewrite Hs. cbn iota. destruct (Ascii.eqb_spec c "-") as [->|Hm];
      [vm_compute; split; [intros [? ?]|]; discriminate|].
    destruct (Ascii.eqb_spec c "+") as [->|Hp];
      [vm_compute; split; [intros [? ?]|]; discriminate|].
    destruct (py_isdigit c); simpl; split; try done; eauto.
Qed.

(** ** [split()] yields whitespace-free words *)

(** ** Splitting and joining *)

(** [''.join(s.split())]: the text without its whitespace. *)
Fixpoint drop_spaces (s : string) : string :=
  match s with
  | EmptyString => EmptyString
  | String c s' => if py_isspace c then drop_spaces s' else String c (drop_spaces s')
  end.

(** [''.join(ws)]. *)
Definition concat_all (ws : list string) : string := foldr String.append "" ws.

Lemma concat_all_app l1 l2 : concat_all (l1 ++ l2)%list = concat_all l1 ++ concat_all l2.
Proof.
  induction l1 as [|w l1 IH]; [done|]. cbn [app concat_all foldr] in *.
  unfold concat_all in *. cbn [foldr]. by rewrite IH, append_assoc.
Qed.

(** Every word of [split()] satisfies a character predicate the text
    satisfies. *)
Lemma split_ws_aux_forallb p cur s :
  str_forallb p cur = true -> str_forallb p s = true ->
  Forall (fun w => str_forallb p w = true) (split_ws_aux cur s).
Proof.
  revert cur. induction s as [|c s IH]; intros cur Hcur Hs; simpl in *.
  - destruct (String.eqb cur ""); [constructor|]. by constructor.
  - apply andb_prop in Hs as [Hc Hs]. destruct (py_isspace c).
    + apply Forall_app; split; [|by apply IH].
      destruct (String.eqb cur ""); [constructor|]. by constructor.
    + apply IH; [|done]. by rewrite str_forallb_app, Hcur, str_forallb_single.
Qed.

Lemma split_ws_aux_no_space cur s :
  str_forallb not_space cur = true ->
  Forall (fun w => str_forallb not_space w = true) (split_ws_aux cur s).
Proof.
  revert cur. induction s as [|c s IH]; intros cur Hcur; simpl.
  - destruct (String.eqb cur ""); [constructor|]. by constructor.
  - destruct (py_isspace c) eqn:Hc.
    + apply Forall_app; split; [|by apply IH].
      destruct (String.eqb cur ""); [constructor|]. by constructor.
    + apply IH. rewrite str_forallb_app, Hcur, str_forallb_single. unfold not_space.
      by rewrite Hc.
Qed.

Lemma split_ws_no_space s : Forall (fun w => str_forallb not_space w = true) (split_ws s).
Proof. by apply split_ws_aux_no_space. Qed.

(** The words of [split()] are never empty. *)
Lemma split_ws_aux_nonempty cur s : Forall (fun w => w <> "") (split_ws_aux cur s).
Proof.
  revert cur. induction s as [|c s IH]; intros cur; simpl.
  - destruct (String.eqb_spec cur ""); [constructor|]. by constructor.
  - destruct (py_isspace c); [|apply IH]. apply Forall_app; split; [|apply IH].
    destruct (String.eqb_spec cur ""); [constructor|]. by constructor.
Qed.

(** [split()] cuts at every whitespace character. *)
Lemma split_ws_aux_space_app cur a c b :
  py_isspace c = true ->
  split_ws_aux cur (a ++ String c b) = (split_ws_aux cur a ++ split_ws_aux "" b)%list.
Proof.
  intros Hc. revert cur. induction a as [|x a IH]; intros cur.
  - rewrite append_nil_l. simpl. by rewrite Hc.
  - rewrite append_cons. simpl. destruct (py_isspace x); [|apply IH].
    by rewrite IH, app_assoc.
Qed.

Lemma split_ws_aux_rstrip cur s : split_ws_aux cur (rstrip s) = split_ws_aux cur s.
Proof.
  revert cur. induction s as [|c s IH]; intros cur; [done|]. cbn [rstrip].
  destruct (String.eqb (rstrip s) "" && py_isspace c) eqn:E.
  - apply andb_prop in E as [E1%String.eqb_eq Hc]. cbn [split_ws_aux]. rewrite Hc, <- (IH ""), E1.
    simpl. by rewrite app_nil_r.
  - cbn [split_ws_aux]. destruct (py_isspace c); by rewrite IH.
Qed.

Lemma split_ws_lstrip s : split_ws (lstrip s) = split_ws s.
Proof.
  unfold split_ws. induction s as [|c s IH]; [done|]. cbn [lstrip].
  destruct (py_isspace c) eqn:Hc; [|done]. rewrite IH. cbn [split_ws_aux]. by rewrite Hc.
Qed.

(** [l.strip().split() == l.split()]. *)
Lemma split_ws_strip s : split_ws (strip s) = split_ws s.
Proof. unfold strip, split_ws. rewrite split_ws_aux_rstrip. apply split_ws_lstrip. Qed.

Lemma split_char_nonempty sep s : split_char sep s <> [].
Proof. destruct s as [|c s]; simpl; [done|]. destruct (Ascii.eqb c sep), (split_char sep s); done. Qed.

(** Round trip: [sep.join(s.split(sep)) == s]. *)
Lemma split_char_join sep s : String.concat (String sep "") (split_char sep s) = s.
Proof.
  induction s as [|c s IH]; [done|]. cbn [split_char].
  pose proof (split_char_nonempty sep s) as Hne.
  destruct (Ascii.eqb_spec c sep) as [->|Hc].
  - destruct (split_char sep s) as [|w ws]; [done|]. cbn [String.concat] in *.
    rewrite append_nil_l, append_cons, append_nil_l. by f_equal.
  - destruct (split_char sep s) as [|w [|w' ws]]; [done| |]; cbn [String.concat] in *.
    + by rewrite IH.
    + rewrite append_cons. by f_equal.
Qed.

(** The words of lines joined by a whitespace character are the words of
    each line, in order. *)
Lemma flat_map_split_ws_concat (sep : ascii) ls :
  py_isspace sep = true -> ls <> [] ->
  flat_map split_ws ls = split_ws (String.concat (String sep "") ls).
Proof.
  intros Hsep. induction ls as [|l ls IH]; [done|]. intros _.
  destruct ls as [|l' ls]; cbn [flat_map String.concat].
  - by rewrite app_nil_r.
  - change (String sep "" ++ ?x) with (String sep x). unfold split_ws.
    rewrite split_ws_aux_space_app by done. f_equal. by apply IH.
Qed.

Lemma split_char_forallb p sep s :
  str_forallb p s = true -> Forall (fun w => str_forallb p w = true) (split_char sep s).
Proof.
  induction s as [|c s IH]; simpl; [by repeat constructor|].
  intros [Hc Hs]%andb_prop. specialize (IH Hs).
  destruct (Ascii.eqb c sep); [by constructor|].
  destruct (split_char sep s) as [|w ws].
  { constructor; [simpl; by rewrite Hc|constructor]. }
  apply Forall_cons_iff' in IH as [Hw Hws]. constructor; [|done]. simpl. by rewrite Hc, Hw.
Qed.

(** [''.join(s.split())] with the run [cur] already read. *)
Lemma concat_split_ws_aux cur s : concat_all (split_ws_aux cur s) = cur ++ drop_spaces s.
Proof.
  revert cur. induction s as [|c s IH]; intros cur; simpl.
  - destruct (String.eqb_spec cur "") as [->|]; simpl; by rewrite ?append_nil_r.
  - destruct (py_isspace c).
    + rewrite concat_all_app, IH, append_nil_l.
      destruct (String.eqb_spec cur "") as [->|]; simpl; by rewrite ?append_nil_r, ?append_nil_l.
    + by rewrite IH, <- append_assoc.
Qed.

Definition no_slash (c : ascii) : bool := negb (Ascii.eqb c "/").

(** [l.split('//')[0] == l] when [l] has no slash. *)
Lemma split_head_no_slash s : str_forallb no_slash s = true -> split_head "//" s = s.
Proof.
  induction s as [|c s IH]; [done|]. cbn [split_head str_forallb]. intros [Hc Hs]%andb_prop.
  unfold no_slash in Hc. cbn [String.prefix].
  destruct (ascii_dec "/" c) as [<-|]; [done|]. by rewrite IH.
Qed.

Definition no_newline (c : ascii) : bool := negb (Ascii.eqb c "010").

(** [l.split('//')[0] == l] when [//] does not occur in [l]. *)
Lemma split_head_no_contains s : py_contains "//" s = false -> split_head "//" s = s.
Proof.
  induction s as [|c s IH]; [done|]. cbn [py_contains split_head].
  intros [Hp Hs]%orb_false_iff. rewrite Hp. by rewrite IH.
Qed.

Lemma py_contains_no_slash s : str_forallb no_slash s = true -> py_contains "//" s = false.
Proof.
  induction s as [|c s IH]; [done|]. cbn [str_forallb py_contains].
  intros [Hc Hs]%andb_prop. unfold no_slash in Hc. cbn [String.prefix].
  destruct (ascii_dec "/" c) as [<-|]; [done|]. simpl. by apply IH.
Qed.

(** [(a + '//' + y).split('//')[0] == a] when [a] has no slash. *)
Lemma split_head_cut a y : str_forallb no_slash a = true -> split_head "//" (a ++ "//" ++ y) = a.
Proof.
  induction a as [|c a IH]; [intros _; by destruct y|]. rewrite append_cons. cbn [split_head str_forallb].
  intros [Hc Ha]%andb_prop. unfold no_slash in Hc. cbn [String.prefix].
  destruct (ascii_dec "/" c) as [<-|]; [done|]. by rewrite IH.
Qed.

(** Trailing whitespace after a non-blank character is all [rstrip] removes. *)
Lemma rstrip_app_nonspace x c y :
  py_isspace c = false -> rstrip (x ++ String c y) = x ++ String c (rstrip y).
Proof.
  intros Hc. induction x as [|d x IH].
  - rewrite append_nil_l. cbn [rstrip]. rewrite Hc, andb_false_r. by rewrite append_nil_l.
  - rewrite !append_cons. cbn [rstrip]. rewrite IH. by destruct x.
Qed.

(** [(l + sep + rest).split(sep) == [l] + rest.split(sep)] when [sep]
    does not occur in [l]. *)
Lemma split_char_app_sep sep l rest :
  str_forallb (fun c => negb (Ascii.eqb c sep)) l = true ->
  split_char sep (l ++ String sep rest) = l :: split_char sep rest.
Proof.
  induction l as [|c l IH].
  - intros _. rewrite append_nil_l. cbn [split_char]. by rewrite Ascii.eqb_refl.
  - rewrite append_cons. cbn [str_forallb split_char]. intros [Hc Hl]%andb_prop.
    apply negb_true_iff in Hc. rewrite Hc, IH by done. reflexivity.
Qed.

Lemma replace_char_app old new s t :
  replace_char old new (s ++ t) = replace_char old new s ++ replace_char old new t.
Proof.
  induction s as [|c s IH]; [done|]. rewrite append_cons. cbn [replace_char].
  by rewrite IH, append_assoc.
Qed.

Lemma length_py_lower s : String.length (py_lower s) = String.length s.
Proof. induction s; simpl; auto. Qed.

#[export] Hint Rewrite slice_to_from length_slice_from length_slice_to
  slice_from_app slice_to_app str_forallb_app length_append replace_char_app : pystr.
#[export] Hint Resolve str_forallb_slice_from str_forallb_slice_to : jack.
