(* ===== verification/Tables.v ===== *)
(** * The tokenizer's constant tables

    [JackTokenizer.keyword_dict] (lines 149-153) as a [gmap] from the
    21 reserved spellings to the enumeration [keyword] (one constructor
    per value string of the dictionary), [JackTokenizer.symbol_set]
    (lines 155-156) as a [gset ascii], the list of two-character
    operators tested at line 49, and the five token-type strings of
    [advance] as the enumeration [token_type].  The lemmas state the
    facts about the tables that the tokenizer's proofs use. *)

From S2P Require Import Prelude PyStr.
Local Open Scope string_scope.

Module Tables.

(** The values of [keyword_dict]: ['CLASS'], ..., ['RETURN']. *)
Inductive keyword : Type :=
| CLASS | CONSTRUCTOR | FUNCTION | METHOD | FIELD | STATIC | VAR | INT
| CHAR | BOOLEAN | VOID | TRUE | FALSE | NULL | THIS | LET | DO | IF
| ELSE | WHILE | RETURN.

#[export] Instance keyword_eq_dec : EqDecision keyword.
Proof. solve_decision. Defined.

(** The values assigned to [self.token_type] by [advance]. *)
Inductive token_type : Type :=
| KEYWORD | SYMBOL | INT_CONSTANT | STRING_CONSTANT | IDENTIFIER.

#[export] Instance token_type_eq_dec : EqDecision token_type.
Proof. solve_decision. Defined.

Definition keyword_dict : gmap string keyword :=
  list_to_map
    [("class", CLASS); ("constructor", CONSTRUCTOR); ("function", FUNCTION);
     ("method", METHOD); ("field", FIELD); ("static", STATIC); ("var", VAR);
     ("int", INT); ("char", CHAR); ("boolean", BOOLEAN); ("void", VOID);
     ("true", TRUE); ("false", FALSE); ("null", NULL); ("this", THIS);
     ("let", LET); ("do", DO); ("if", IF); ("else", ELSE);
     ("while", WHILE); ("return", RETURN)].

Definition symbol_set : gset ascii :=
  list_to_set
    ["{"; "}"; "("; ")"; "["; "]"; "."; ","; ";"; "+"; "-"; "*"; "/";
     "&"; "|"; "<"; ">"; "="; "~"]%char.

(** The operators of line 49, [['++', '<=', '>=']]. *)
Definition two_char_ops : list string := ["++"; "<="; ">="].

(** Boolean membership tests, as the code's [in] evaluates them. *)
Definition is_symbol (c : ascii) : bool := bool_decide (c ∈ symbol_set).
Definition is_two_char_op (s : string) : bool := bool_decide (s ∈ two_char_ops).
Definition is_keyword (s : string) : bool := bool_decide (is_Some (keyword_dict !! s)).

(** The tests compute by [vm_compute]; [simpl] must not unfold them into
    the trees of [gmap] and [gset]. *)
Arguments is_symbol : simpl never.
Arguments is_two_char_op : simpl never.
Arguments is_keyword : simpl never.

(** ** Facts about the tables *)

(** The spelling of each keyword, read back from the dictionary. *)
Definition keyword_spelling (k : keyword) : string :=
  match k with
  | CLASS => "class" | CONSTRUCTOR => "constructor" | FUNCTION => "function"
  | METHOD => "method" | FIELD => "field" | STATIC => "static" | VAR => "var"
  | INT => "int" | CHAR => "char" | BOOLEAN => "boolean" | VOID => "void"
  | TRUE => "true" | FALSE => "false" | NULL => "null" | THIS => "this"
  | LET => "let" | DO => "do" | IF => "if" | ELSE => "else"
  | WHILE => "while" | RETURN => "return"
  end.

Lemma keyword_dict_spelling k : keyword_dict !! keyword_spelling k = Some k.
Proof. destruct k; vm_compute; reflexivity. Qed.

(** Every entry of the dictionary is one of the 21 spellings. *)
Lemma keyword_dict_lookup s k :
  keyword_dict !! s = Some k -> s = keyword_spelling k.
Proof.
  unfold keyword_dict. intros H%elem_of_list_to_map_2.
  repeat (apply elem_of_cons in H as [H|H]; [by simplify_eq|]).
  by apply elem_of_nil in H.
Qed.

(** A keyword spelling is a non-empty run of lower-case letters. *)
Definition is_lower_letter (c : ascii) : bool :=
  let n := nat_of_ascii c in ((97 <=? n) && (n <=? 122))%nat.

Lemma keyword_spelling_letters k :
  keyword_spelling k <> "" /\ str_forallb is_lower_letter (keyword_spelling k) = true.
Proof. destruct k; split; vm_compute; congruence. Qed.

(** Every symbol is a visible ASCII character: not whitespace, not a
    digit, not the double quote. *)
Lemma symbol_set_chars c :
  c ∈ symbol_set -> py_isspace c = false /\ py_isdigit c = false /\ c <> quote_char.
Proof.
  unfold symbol_set. rewrite elem_of_list_to_set.
  intros H. repeat (apply elem_of_cons in H as [->|H]; [split; [reflexivity|split; [reflexivity|discriminate]]|]).
  by apply elem_of_nil in H.
Qed.

(** The first character of every two-character operator is a symbol
    (the lookahead of line 49 is only reached after the test of line 47). *)
Lemma two_char_ops_shape s :
  s ∈ two_char_ops ->
  exists c1 c2, s = String c1 (String c2 "") /\ c1 ∈ symbol_set /\ c2 ∈ symbol_set.
Proof.
  unfold two_char_ops. intros H.
  repeat (apply elem_of_cons in H as [->|H];
          [eexists _, _; split; [reflexivity|]; split; decide_by_compute|]).
  by apply elem_of_nil in H.
Qed.

Lemma is_symbol_spec c : is_symbol c = true <-> c ∈ symbol_set.
Proof. unfold is_symbol. apply bool_decide_eq_true. Qed.

Lemma is_keyword_spec s : is_keyword s = true <-> is_Some (keyword_dict !! s).
Proof. unfold is_keyword. apply bool_decide_eq_true. Qed.

End Tables.
Export Tables.

#[export] Hint Resolve keyword_dict_spelling : jack.
