(* ===== verification/Tokenizer.v ===== *)
(** * [JackTokenizer]: the fragment queue and [advance]

    The tokenizer object of lines 31-38 is the record [tokenizer]: the
    deque [self.jack] is a list whose head is the deque's left end,
    [self.curr_token] and [self.token_type] are options ([None] until
    the first [advance]).  The constant attributes [self.keywords] and
    [self.symbols] are the tables of [Tables].  [advance] (lines 43-97)
    is one definition whose four branches call [scan_string] (the
    [while True] loop of lines 64-73, structural on the queue) and
    [int_scan] (the [while] loop of lines 79-80, with fuel).

    Lemmas: the queue invariant [queue_ok] is preserved; [advance]
    strictly decreases [queue_size]; each branch's behaviour; the
    integer loop stops exactly when a non-digit follows the digit run.
    Theorems: the string-constant round trip, the errors of [advance],
    the kind/payload consistency of the produced token, that a
    fragment of symbols is always read as symbols.  The accessors
    [key_word], [symbol], [identifier], [int_val], [string_val] and
    [token_type_method] (lines 91-117) are modelled as read-outs of the
    state. *)

From S2P Require Import Prelude PyStr Tables.
Local Open Scope string_scope.
Local Open Scope result_scope.

Module JackTokenizer.

Record tokenizer : Type := mk_tokenizer {
  jack : list string;
  curr_token : option string;
  token_type : option Tables.token_type
}.

(** [has_more_tokens] (lines 40-41) returns the deque, which the [while]
    of line 17 tests for non-emptiness. *)
Definition has_more_tokens (t : tokenizer) : bool :=
  match jack t with [] => false | _ => true end.

(** [self.jack.popleft()]: [IndexError] on an empty deque. *)
Definition popleft (q : list string) : result (string * list string) :=
  match q with
  | [] => Raise IndexError
  | x :: q' => Ok (x, q')
  end.

(** [if s: self.jack.appendleft(s)]. *)
Definition requeue (s : string) (q : list string) : list string :=
  if String.eqb s "" then q else s :: q.

(** [is_int] (lines 142-147): [int(string)] succeeds. *)
Definition is_int (s : string) : bool :=
  match py_int s with Some _ => true | None => false end.

Definition is_quote (c : ascii) : bool := Ascii.eqb c quote_char.

(** The loop of lines 64-73: look for a closing quote in [curr_string];
    when there is none, append it and a space to [full_string] and pop
    the next fragment ([IndexError] when the deque is empty). *)
Fixpoint scan_string (full_string curr_string : string) (q : list string)
    : result (string * list string) :=
  match find_index is_quote curr_string with
  | Some i => Ok (full_string ++ slice_to curr_string i,
                  requeue (slice_from curr_string (i + 1)) q)
  | None =>
      match q with
      | [] => Raise IndexError
      | next :: q' => scan_string (full_string ++ curr_string ++ " ") next q'
      end
  end.

(** The loop of lines 79-80: [while is_int(next_token[:int_idx+1]):
    int_idx += 1]; [OutOfFuel] when the loop has not stopped after
    [fuel] tests. *)
Fixpoint int_scan (fuel : nat) (next_token : string) (int_idx : nat) : result nat :=
  match fuel with
  | O => OutOfFuel
  | S fuel' =>
      if is_int (slice_to next_token (int_idx + 1))
      then int_scan fuel' next_token (int_idx + 1)
      else Ok int_idx
  end.

(** [advance] (lines 43-97). *)
Definition advance (fuel : nat) (t : tokenizer) : result tokenizer :=
  let* '(next_token, q) := popleft (jack t) in
  let* c0 := char_at0 next_token in
  if is_symbol c0 then
    if (2 <=? String.length next_token)%nat && is_two_char_op (slice_to next_token 2)
    then Ok {| jack := requeue (slice_from next_token 2) q;
               curr_token := Some (slice_to next_token 2);
               token_type := Some SYMBOL |}
    else Ok {| jack := requeue (slice_from next_token 1) q;
               curr_token := Some (slice_to next_token 1);
               token_type := Some SYMBOL |}
  else if is_quote c0 then
    let* '(full_string, q') := scan_string "" (slice_from next_token 1) q in
    Ok {| jack := q'; curr_token := Some (strip full_string);
          token_type := Some STRING_CONSTANT |}
  else if is_int (String c0 "") then
    let* int_idx := int_scan fuel next_token 0 in
    Ok {| jack := requeue (slice_from next_token int_idx) q;
          curr_token := Some (slice_to next_token int_idx);
          token_type := Some INT_CONSTANT |}
  else
    let '(curr, q') :=
      match find_index is_symbol next_token with
      | Some i => (slice_to next_token i, slice_from next_token i :: q)
      | None => (next_token, q)
      end in
    Ok {| jack := q'; curr_token := Some curr;
          token_type := Some (if is_keyword curr then KEYWORD else IDENTIFIER) |}.

(** ** Accessors (lines 102-112) *)

(** [key_word]: [self.keywords[self.curr_token]]. *)
Definition key_word (t : tokenizer) : result keyword :=
  match curr_token t with
  | Some s => match keyword_dict !! s with Some k => Ok k | None => Raise KeyError end
  | None => Raise KeyError
  end.

(** [symbol], [identifier] and [string_val] (lines 105-115) return
    [self.curr_token], [None] before the first [advance]. *)
Definition symbol (t : tokenizer) : option string := curr_token t.
Definition identifier (t : tokenizer) : option string := curr_token t.
Definition string_val (t : tokenizer) : option string := curr_token t.

(** [token_type()] (lines 99-100) is shadowed by the attribute
    [self.token_type] set at line 36: [tokenizer.token_type()] calls
    [None] or a [str], a [TypeError] in every state. *)
Definition token_type_method (t : tokenizer) : result Tables.token_type :=
  match token_type t with
  | None => Raise TypeError
  | Some _ => Raise TypeError
  end.

(** [int_val]: [int(self.curr_token)]; [int(None)] is a [TypeError]. *)
Definition int_val (t : tokenizer) : result Z :=
  match curr_token t with
  | Some s => match py_int s with Some n => Ok n | None => Raise ValueError end
  | None => Raise TypeError
  end.

(** ** The queue invariant and the queue size *)

(** A fragment as [load_file] makes them: non-empty, no whitespace. *)
Definition fragment_ok (s : string) : bool :=
  negb (String.eqb s "") && str_forallb not_space s.

Definition queue_ok (q : list string) : Prop := Forall (fun s => fragment_ok s = true) q.

Definition queue_size (q : list string) : nat :=
  foldr (fun s n => String.length s + n) 0 q.

(** ** Helper lemmas *)

Lemma requeue_size s q : queue_size (requeue s q) = String.length s + queue_size q.
Proof. unfold requeue. destruct (String.eqb_spec s ""); subst; reflexivity. Qed.

Lemma queue_size_cons s q : queue_size (s :: q) = String.length s + queue_size q.
Proof. reflexivity. Qed.

Lemma requeue_nonempty c r q : requeue (String c r) q = String c r :: q.
Proof. reflexivity. Qed.

Lemma requeue_ok s q :
  str_forallb not_space s = true -> queue_ok q -> queue_ok (requeue s q).
Proof.
  unfold requeue. intros Hs Hq. destruct (String.eqb_spec s ""); [done|].
  constructor; [|done]. unfold fragment_ok. apply andb_true_intro; split; [|done].
  by apply negb_true_iff, String.eqb_neq.
Qed.

Lemma fragment_ok_no_space s : fragment_ok s = true -> str_forallb not_space s = true.
Proof. by intros [_ ?]%andb_prop. Qed.

(** Character classes that decide the branch of [advance]. *)
Lemma digit_not_symbol c : py_isdigit c = true -> is_symbol c = false.
Proof.
  intros Hd. destruct (is_symbol c) eqn:E; [|done].
  apply is_symbol_spec, symbol_set_chars in E as (_ & E & _). congruence.
Qed.

Lemma digit_not_quote c : py_isdigit c = true -> is_quote c = false.
Proof. intros Hd. apply Ascii.eqb_neq. intros ->. discriminate Hd. Qed.

Lemma quote_not_symbol : is_symbol quote_char = false.
Proof. reflexivity. Qed.

Lemma is_int_digit c : py_isdigit c = true -> is_int (String c "") = true.
Proof.
  intros Hc. unfold is_int. rewrite py_int_digits; [done|discriminate|].
  unfold all_digits. by rewrite str_forallb_single.
Qed.

(** ** [scan_string] *)

(** The loop body, for a deque that is not known to be empty or not. *)
Lemma scan_string_unfold full curr q :
  scan_string full curr q =
  match find_index is_quote curr with
  | Some i => Ok (full ++ slice_to curr i, requeue (slice_from curr (i + 1)) q)
  | None => match q with
            | [] => Raise IndexError
            | next :: q' => scan_string (full ++ curr ++ " ") next q'
            end
  end.
Proof. by destruct q. Qed.

Lemma scan_string_ok full curr q v q' :
  queue_ok q -> str_forallb not_space curr = true ->
  scan_string full curr q = Ok (v, q') -> queue_ok q'.
Proof.
  revert full curr v q'. induction q as [|next q IH]; intros full curr v q' Hq Hc; cbn [scan_string];
    destruct (find_index is_quote curr) as [i|].
  - intros [= _ <-]. by apply requeue_ok; [apply str_forallb_slice_from|].
  - discriminate.
  - intros [= _ <-]. by apply requeue_ok; [apply str_forallb_slice_from|].
  - apply Forall_cons_iff' in Hq as [Hn Hq]. apply IH; [done|].
    by apply fragment_ok_no_space.
Qed.

Lemma scan_string_size full curr q v q' :
  scan_string full curr q = Ok (v, q') ->
  queue_size q' < String.length curr + queue_size q.
Proof.
  revert full curr v q'. induction q as [|next q IH]; intros full curr v q'; cbn [scan_string];
    destruct (find_index is_quote curr) as [i|] eqn:E; try discriminate.
  1,2: intros [= _ <-]; rewrite requeue_size, length_slice_from;
       apply find_index_lt in E; simpl; lia.
  intros H%IH. simpl in *. lia.
Qed.

(** ** [int_scan] *)

Lemma int_scan_mono fuel fuel' s k n :
  int_scan fuel s k = Ok n -> fuel <= fuel' -> int_scan fuel' s k = Ok n.
Proof.
  revert fuel' k. induction fuel as [|f IH]; intros [|f'] k; simpl; try discriminate; [lia|].
  intros H Hle. destruct (is_int _); [apply IH; [done|lia] | done].
Qed.

(** On a digit run followed by a non-digit, non-blank character the loop
    stops at the end of the run, given enough fuel. *)
Lemma int_scan_stops d c r k fuel :
  d <> "" -> all_digits d = true -> py_isdigit c = false -> py_isspace c = false ->
  k <= String.length d -> String.length d - k < fuel ->
  int_scan fuel (d ++ String c r) k = Ok (String.length d).
Proof.
  intros Hne Hd Hc Hs. revert k. induction fuel as [|f IH]; intros k Hk Hf; [lia|].
  simpl. destruct (Nat.eq_dec k (String.length d)) as [->|Hlt].
  - rewrite slice_to_app_add. simpl.
    unfold is_int. destruct (py_int (d ++ String c "")) eqn:E.
    + exfalso. enough (py_isdigit c = true) by congruence.
      apply (py_int_digits_snoc d c Hne Hd Hs). by rewrite E.
    + reflexivity.
  - rewrite slice_to_app_le by lia. unfold is_int.
    rewrite py_int_digits.
    + apply IH; lia.
    + intros E. apply (f_equal String.length) in E. rewrite length_slice_to in E.
      destruct d; simpl in *; [done|lia].
    + by apply str_forallb_slice_to.
Qed.

(** On a fragment of digits only the loop never stops. *)
Lemma int_scan_digits_forever d k fuel :
  d <> "" -> all_digits d = true -> int_scan fuel d k = OutOfFuel.
Proof.
  intros Hne Hd. revert k. induction fuel as [|f IH]; intros k; [reflexivity|].
  simpl. unfold is_int. rewrite py_int_digits; [apply IH| |by apply str_forallb_slice_to].
  intros E. apply (f_equal String.length) in E. rewrite length_slice_to in E.
  destruct d; simpl in *; [done|lia].
Qed.

Lemma int_scan_le fuel s k n : int_scan fuel s k = Ok n -> k <= n.
Proof.
  revert k. induction fuel as [|f IH]; intros k; simpl; [discriminate|].
  destruct (is_int _); [intros H%IH; lia | intros [= <-]; lia].
Qed.

(** When the first test succeeds the loop consumes at least one more
    character. *)
Lemma int_scan_first fuel s k n :
  int_scan fuel s k = Ok n -> is_int (slice_to s (k + 1)) = true -> k < n.
Proof.
  destruct fuel as [|f]; cbn [int_scan]; [discriminate|]. intros H Hi.
  rewrite Hi in H. apply int_scan_le in H. lia.
Qed.

Lemma fragment_ok_slice_from s i :
  fragment_ok s = true -> i < String.length s -> fragment_ok (slice_from s i) = true.
Proof.
  intros Hs Hi. unfold fragment_ok. apply andb_true_intro; split.
  - apply negb_true_iff, String.eqb_neq. intros E.
    apply (f_equal String.length) in E. rewrite length_slice_from in E. simpl in E. lia.
  - by apply str_forallb_slice_from, fragment_ok_no_space.
Qed.

(** ** The five outcomes of a successful [advance]

    One disjunct per branch of lines 47-97: two- and one-character
    symbol, string constant, integer constant, identifier or keyword. *)
Lemma advance_Ok_cases fuel t t' :
  advance fuel t = Ok t' ->
  exists c r q, jack t = String c r :: q /\
  ((is_symbol c = true /\
    (2 <=? String.length (String c r))%nat && is_two_char_op (slice_to (String c r) 2) = true /\
    t' = {| jack := requeue (slice_from (String c r) 2) q;
            curr_token := Some (slice_to (String c r) 2); token_type := Some SYMBOL |})
   \/ (is_symbol c = true /\
    (2 <=? String.length (String c r))%nat && is_two_char_op (slice_to (String c r) 2) = false /\
    t' = {| jack := requeue r q; curr_token := Some (String c ""); token_type := Some SYMBOL |})
   \/ (is_symbol c = false /\ is_quote c = true /\
       exists v, scan_string "" r q = Ok (v, jack t') /\
                 curr_token t' = Some (strip v) /\ token_type t' = Some STRING_CONSTANT)
   \/ (is_symbol c = false /\ is_quote c = false /\ is_int (String c "") = true /\
       exists n, int_scan fuel (String c r) 0 = Ok n /\
       t' = {| jack := requeue (slice_from (String c r) n) q;
               curr_token := Some (slice_to (String c r) n);
               token_type := Some INT_CONSTANT |})
   \/ (is_symbol c = false /\ is_quote c = false /\ is_int (String c "") = false /\
       exists w q',
       ((exists i, find_index is_symbol (String c r) = Some i /\
                   w = slice_to (String c r) i /\ q' = slice_from (String c r) i :: q)
        \/ (find_index is_symbol (String c r) = None /\ w = String c r /\ q' = q)) /\
       t' = {| jack := q'; curr_token := Some w;
               token_type := Some (if is_keyword w then KEYWORD else IDENTIFIER) |})).
Proof.
  unfold advance. destruct (jack t) as [|[|c r] q]; cbn [popleft char_at0 rbind];
    try discriminate.
  intros H. exists c, r, q. split; [reflexivity|].
  destruct (is_symbol c) eqn:Hsym.
  { destruct (_ && _) eqn:Htwo; apply Ok_inj in H; subst t'; [left|right; left]; auto. }
  destruct (is_quote c) eqn:Hq.
  { do 2 right; left. destruct (scan_string "" _ q) as [[v q'']| |] eqn:E;
      simpl in H; try discriminate. apply Ok_inj in H; subst t'. simpl.
    repeat split; auto. exists v. auto. }
  destruct (is_int (String c "")) eqn:Hi.
  { do 3 right; left. destruct (int_scan fuel _ 0) as [n| |] eqn:E;
      simpl in H; try discriminate. apply Ok_inj in H; subst t'. repeat split; auto. eauto. }
  do 4 right. repeat split; auto.
  destruct (find_index is_symbol (String c r)) as [i|] eqn:E; apply Ok_inj in H; subst t'.
  - exists (slice_to (String c r) i), (slice_from (String c r) i :: q).
    split; [left; exists i; auto | reflexivity].
  - exists (String c r), q. split; [right; auto | reflexivity].
Qed.

(** A successful [advance] consumes [String c r] from the front, and
    when the leading character is not a symbol the identifier branch's
    match is at a positive index. *)
Lemma find_index_symbol_pos c r i :
  is_symbol c = false -> find_index is_symbol (String c r) = Some i -> 0 < i.
Proof. simpl. intros ->. destruct (find_index _ r); simpl; intros [= <-]; lia. Qed.

(** ** The queue invariant *)

(** [advance] preserves the queue invariant: every fragment left in
    the deque is non-empty and contains no whitespace. *)
Lemma advance_preserves_queue_ok fuel t t' :
  queue_ok (jack t) -> advance fuel t = Ok t' -> queue_ok (jack t').
Proof.
  intros Hok (c & r & q & Hj & Hcase)%advance_Ok_cases. rewrite Hj in Hok.
  apply Forall_cons_iff' in Hok as [Hs Hq].
  pose proof (fragment_ok_no_space _ Hs) as Hns.
  destruct Hcase as [(_ & _ & ->)|[(_ & _ & ->)|[(_ & _ & v & Hv & _)|[(_ & _ & _ & n & _ & ->)|
                     (_ & _ & _ & w & q' & [(i & Hi & _ & ->)|(_ & _ & ->)] & ->)]]]];
    cbn [jack].
  - apply requeue_ok; [exact (str_forallb_slice_from _ _ 2 Hns)|done].
  - apply requeue_ok; [|done]. exact (str_forallb_slice_from _ _ 1 Hns).
  - eapply scan_string_ok; [exact Hq| |exact Hv]. exact (str_forallb_slice_from _ _ 1 Hns).
  - apply requeue_ok; [by apply str_forallb_slice_from|done].
  - constructor; [|done]. apply fragment_ok_slice_from; [done|]. by eapply find_index_lt.
  - done.
Qed.

(** Every successful [advance] strictly decreases the number of
    characters left in the deque. *)
Lemma advance_decreases_size fuel t t' :
  advance fuel t = Ok t' -> queue_size (jack t') < queue_size (jack t).
Proof.
  intros H.
  apply advance_Ok_cases in H as (c & r & q & Hj & Hcase). rewrite Hj, queue_size_cons.
  destruct Hcase as [(_ & _ & ->)|[(_ & _ & ->)|[(_ & _ & v & Hv & _)|[(_ & _ & Hint & n & Hn & ->)|
                     (Hsym & _ & _ & w & q' & [(i & Hi & _ & ->)|(_ & _ & ->)] & ->)]]]];
    cbn [jack]; rewrite ?queue_size_cons, ?requeue_size, ?length_slice_from;
    cbn [String.length] in *.
  - lia.
  - lia.
  - apply scan_string_size in Hv. lia.
  - apply int_scan_first in Hn; [cbn [String.length] in *; lia|exact Hint].
  - pose proof (find_index_symbol_pos _ _ _ Hsym Hi). cbn [String.length] in *. lia.
  - lia.
Qed.

Lemma is_int_single c : is_int (String c "") = py_isdigit c.
Proof.
  unfold is_int. pose proof (py_int_single c) as H.
  destruct (py_int _), (py_isdigit c); try reflexivity.
  - by destruct (proj1 H ltac:(eauto)).
  - by destruct (proj2 H eq_refl).
Qed.

(** Unfold [advance] on a non-empty front fragment down to its first
    test. *)
Lemma advance_unfold fuel t c r q :
  jack t = String c r :: q ->
  advance fuel t =
  if is_symbol c then
    if (2 <=? String.length (String c r))%nat && is_two_char_op (slice_to (String c r) 2)
    then Ok {| jack := requeue (slice_from (String c r) 2) q;
               curr_token := Some (slice_to (String c r) 2); token_type := Some SYMBOL |}
    else Ok {| jack := requeue r q; curr_token := Some (String c "");
               token_type := Some SYMBOL |}
  else if is_quote c then
    let* '(full_string, q') := scan_string "" r q in
    Ok {| jack := q'; curr_token := Some (strip full_string);
          token_type := Some STRING_CONSTANT |}
  else if is_int (String c "") then
    let* int_idx := int_scan fuel (String c r) 0 in
    Ok {| jack := requeue (slice_from (String c r) int_idx) q;
          curr_token := Some (slice_to (String c r) int_idx);
          token_type := Some INT_CONSTANT |}
  else
    let '(curr, q') :=
      match find_index is_symbol (String c r) with
      | Some i => (slice_to (String c r) i, slice_from (String c r) i :: q)
      | None => (String c r, q)
      end in
    Ok {| jack := q'; curr_token := Some curr;
          token_type := Some (if is_keyword curr then KEYWORD else IDENTIFIER) |}.
Proof. intros Hj. unfold advance. by rewrite Hj. Qed.

(** ** Behaviour of each branch *)

(** Longest match first: a fragment that begins with one of the
    two-character operators ['++', '<=', '>='] yields that operator as a
    [SYMBOL] of length two, and the rest of the fragment, if any, goes
    back to the front of the deque. *)
Lemma advance_two_char_symbol fuel t c1 c2 r q :
  jack t = String c1 (String c2 r) :: q ->
  String c1 (String c2 "") ∈ two_char_ops ->
  advance fuel t = Ok {| jack := requeue r q; curr_token := Some (String c1 (String c2 ""));
                         token_type := Some SYMBOL |}.
Proof.
  intros Hj Hop. rewrite (advance_unfold _ _ _ _ _ Hj).
  destruct (two_char_ops_shape _ Hop) as (? & ? & [= <- <-] & Hc1 & _).
  rewrite (proj2 (is_symbol_spec c1) Hc1).
  replace (is_two_char_op _) with true by (symmetry; by apply bool_decide_eq_true).
  reflexivity.
Qed.

(** A fragment that begins with a symbol character but not with a
    two-character operator yields that one character as a [SYMBOL]; the
    rest of the fragment, if any, goes back to the front of the deque. *)
Lemma advance_one_char_symbol fuel t c r q :
  jack t = String c r :: q -> c ∈ symbol_set ->
  slice_to (String c r) 2 ∉ two_char_ops ->
  advance fuel t = Ok {| jack := requeue r q; curr_token := Some (String c "");
                         token_type := Some SYMBOL |}.
Proof.
  intros Hj Hc Hop. rewrite (advance_unfold _ _ _ _ _ Hj), (proj2 (is_symbol_spec c) Hc).
  replace (is_two_char_op _) with false by (symmetry; by apply bool_decide_eq_false).
  by rewrite andb_false_r.
Qed.

(** A fragment made of a run of digits followed by a non-digit,
    non-blank character yields the digit run as an [INT_CONSTANT] and
    puts the rest back, once the loop of lines 79-80 has as much fuel as
    the run is long. *)
Lemma advance_int_constant fuel t d c r q :
  jack t = (d ++ String c r) :: q -> d <> "" -> all_digits d = true ->
  py_isdigit c = false -> py_isspace c = false -> String.length d < fuel ->
  advance fuel t = Ok {| jack := String c r :: q; curr_token := Some d;
                         token_type := Some INT_CONSTANT |}.
Proof.
  intros Hj Hne Hd Hc Hs Hf. destruct d as [|c0 d']; [done|].
  rewrite append_cons in Hj. rewrite (advance_unfold _ _ _ _ _ Hj).
  destruct (andb_prop _ _ Hd : py_isdigit c0 = true /\ _) as [Hc0 _].
  rewrite digit_not_symbol, digit_not_quote, is_int_single, Hc0 by exact Hc0.
  rewrite <- append_cons, int_scan_stops by (cbn [String.length] in *; auto with lia).
  simpl. rewrite slice_from_app, slice_to_app. reflexivity.
Qed.

(** The loop of lines 79-80 never stops on a fragment that consists
    only of digits (for example the [10] of [let x = 10 ;]): the prefix
    [next_token[:int_idx+1]] stops growing at the end of the fragment
    and stays a numeral, so [advance] runs out of any amount of fuel. *)
Lemma advance_int_diverges t d q :
  jack t = d :: q -> d <> "" -> all_digits d = true ->
  forall fuel, advance fuel t = OutOfFuel.
Proof.
  intros Hj Hne Hd fuel. destruct d as [|c0 d']; [done|].
  rewrite (advance_unfold _ _ _ _ _ Hj).
  destruct (andb_prop _ _ Hd : py_isdigit c0 = true /\ _) as [Hc0 _].
  rewrite digit_not_symbol, digit_not_quote, is_int_single, Hc0 by exact Hc0.
  by rewrite int_scan_digits_forever.
Qed.

(** Identifier or keyword: a fragment [w ++ rest] whose text [w]
    starts with a character that is not a symbol, a quote or a digit,
    contains no symbol, and is followed by nothing or by a symbol,
    yields [w]; it is a [KEYWORD] exactly when [w] is a key of
    [keyword_dict], an [IDENTIFIER] otherwise; [rest] goes back to the
    front of the deque. *)
Lemma advance_identifier fuel t c w' rest q :
  jack t = (String c w' ++ rest) :: q ->
  str_forallb (fun x => negb (is_symbol x)) (String c w') = true ->
  is_quote c = false -> py_isdigit c = false ->
  match rest with String c' _ => is_symbol c' = true | EmptyString => True end ->
  advance fuel t =
  Ok {| jack := requeue rest q; curr_token := Some (String c w');
        token_type := Some (if is_keyword (String c w') then KEYWORD else IDENTIFIER) |}.
Proof.
  intros Hj Hw Hq Hd Hrest. rewrite append_cons in Hj.
  rewrite (advance_unfold _ _ _ _ _ Hj), Hq, is_int_single, Hd.
  destruct (andb_prop _ _ Hw) as [Hc _]. apply negb_true_iff in Hc. rewrite Hc.
  rewrite <- append_cons, find_index_app by exact Hw.
  destruct rest as [|c' r'].
  - rewrite find_index_none_of by done. rewrite append_nil_r. reflexivity.
  - simpl find_index. rewrite Hrest. simpl option_map. rewrite Nat.add_0_r.
    by rewrite slice_to_app, slice_from_app.
Qed.

(** The fragments [split()] makes of a string constant ["w1 ... wn"]
    followed (without a space) by [rest]: the opening quote is glued to
    the first word, the closing quote and [rest] to the last one. *)
Fixpoint close_last (ws : list string) (rest : string) : list string :=
  match ws with
  | [] => []
  | [w] => [w ++ String quote_char rest]
  | w :: ws' => w :: close_last ws' rest
  end.

Definition literal_fragments (ws : list string) (rest : string) : list string :=
  match close_last ws rest with
  | [] => [String quote_char (String quote_char rest)]
  | f :: fs => String quote_char f :: fs
  end.

(** A word of a string constant as [split()] leaves it. *)
Definition literal_word_ok (w : string) : bool :=
  fragment_ok w && str_forallb (fun x => negb (is_quote x)) w.

Lemma scan_string_close_last full ws rest q :
  ws <> [] -> Forall (fun w => literal_word_ok w = true) ws ->
  match close_last ws rest with
  | f :: fs => scan_string full f (fs ++ q)%list = Ok (full ++ String.concat " " ws, requeue rest q)
  | [] => False
  end.
Proof.
  revert full. induction ws as [|w ws IH]; intros full Hne Hws; [done|].
  apply Forall_cons_iff' in Hws as [Hw Hws].
  apply andb_prop in Hw as [_ Hnq].
  destruct ws as [|w2 ws'].
  - cbn [close_last app]. rewrite scan_string_unfold, find_index_app by exact Hnq.
    change (find_index is_quote (String quote_char rest)) with (Some 0). cbn [option_map].
    rewrite Nat.add_0_r, slice_to_app, slice_from_app_add. reflexivity.
  - specialize (IH (full ++ w ++ " ") ltac:(discriminate) Hws).
    cbn [close_last]. destruct (close_last (w2 :: ws') rest) as [|f fs] eqn:E; [done|].
    cbn [close_last] in E. rewrite E. cbn iota. rewrite scan_string_unfold.
    rewrite find_index_none_of by exact Hnq. cbn [app]. rewrite IH.
    by rewrite <- !append_assoc.
Qed.

Lemma concat_fragments_ends_ok ws :
  Forall (fun w => fragment_ok w = true) ws -> ends_ok (String.concat " " ws) = true.
Proof.
  induction ws as [|w ws IH]; [done|]. intros [Hw Hws]%Forall_cons_iff'.
  destruct ws as [|w2 ws'].
  - by apply ends_ok_no_space, fragment_ok_no_space.
  - change (String.concat " " (w :: w2 :: ws')) with (w ++ " " ++ String.concat " " (w2 :: ws')).
    assert (String.concat " " (w2 :: ws') <> "") as Hne.
    { apply Forall_cons_iff' in Hws as [Hw2 _]. destruct w2 as [|c2 w2]; [discriminate|].
      destruct ws'; [discriminate|]. cbn [String.concat]. rewrite append_cons. discriminate. }
    rewrite ends_ok_app by (rewrite append_cons; discriminate).
    rewrite ends_ok_app by exact Hne. by apply IH.
Qed.

Lemma strip_concat_fragments ws :
  Forall (fun w => fragment_ok w = true) ws -> strip (String.concat " " ws) = String.concat " " ws.
Proof.
  intros Hws. destruct ws as [|[|c w] ws]; [reflexivity| |].
  - apply Forall_cons_iff' in Hws as [Hw _]. discriminate Hw.
  - pose proof (concat_fragments_ends_ok _ Hws) as He.
    apply Forall_cons_iff' in Hws as [Hw _]. apply fragment_ok_no_space in Hw.
    destruct (andb_prop _ _ Hw) as [Hc _].
    destruct ws; [|change (String.concat " " (String c w :: ?l)) with (String c w ++ " " ++ String.concat " " l);
                   rewrite append_cons in *];
      apply strip_id; auto; unfold not_space in Hc; by destruct (py_isspace c).
Qed.

(** C8 Round trip of a string constant: the fragments that [split()]
    makes of ["w1 w2 ... wn"rest] (quote glued to the first and last
    words) are read back by [advance] as the [STRING_CONSTANT]
    [w1 w2 ... wn], the words joined by single spaces, and [rest] goes
    back to the front of the deque. *)
Theorem advance_string_literal fuel t ws rest q :
  jack t = (literal_fragments ws rest ++ q)%list -> ws <> [] ->
  Forall (fun w => literal_word_ok w = true) ws ->
  advance fuel t = Ok {| jack := requeue rest q; curr_token := Some (String.concat " " ws);
                         token_type := Some STRING_CONSTANT |}.
Proof.
  intros Hj Hne Hws. pose proof (scan_string_close_last "" ws rest q Hne Hws) as Hscan.
  unfold literal_fragments in Hj. destruct (close_last ws rest) as [|f fs]; [done|].
  cbn [app] in Hj. rewrite (advance_unfold _ _ _ _ _ Hj), quote_not_symbol.
  change (is_quote quote_char) with true. cbn iota. rewrite Hscan. cbn [rbind]. rewrite append_nil_l.
  rewrite strip_concat_fragments; [reflexivity|].
  eapply Forall_impl; [exact Hws|]. by intros w [? _]%andb_prop.
Qed.

Lemma advance_string_literal_witness :
  advance 0 {| jack := [String quote_char "abc"; "def" ++ String quote_char ");"]; curr_token := None;
               token_type := None |} =
  Ok {| jack := [");"]; curr_token := Some "abc def"; token_type := Some STRING_CONSTANT |}.
Proof.
  apply (advance_string_literal 0 _ ["abc"; "def"] ");" []);
    [reflexivity | discriminate | repeat constructor].
Defined.

(** C9 Unterminated string: when no fragment from the opening quote to
    the end of the deque contains a closing quote, [advance] fails with
    the [IndexError] of [popleft()] on the emptied deque (the spec's
    UnterminatedString) instead of returning a truncated token. *)
Theorem advance_unterminated_string fuel t r q :
  jack t = String quote_char r :: q ->
  str_forallb (fun x => negb (is_quote x)) r = true ->
  Forall (fun s => str_forallb (fun x => negb (is_quote x)) s = true) q ->
  advance fuel t = Raise IndexError.
Proof.
  intros Hj Hr Hq.
  assert (forall full curr, str_forallb (fun x => negb (is_quote x)) curr = true ->
            scan_string full curr q = Raise IndexError) as Hscan.
  { clear Hj. induction Hq as [|s q Hs Hq IH]; intros full curr Hc;
      rewrite scan_string_unfold, find_index_none_of by exact Hc; auto. }
  rewrite (advance_unfold _ _ _ _ _ Hj), quote_not_symbol.
  change (is_quote quote_char) with true. cbn iota. by rewrite Hscan.
Qed.

Lemma advance_unterminated_string_witness :
  advance 0 {| jack := [String quote_char "abc"; "def"]; curr_token := None; token_type := None |} =
  Raise IndexError.
Proof. apply (advance_unterminated_string 0 _ "abc" ["def"]); [reflexivity|reflexivity|repeat constructor]. Defined.

(** C11 [advance] on an empty deque fails with the [IndexError] of
    [popleft()] (the spec's EmptyQueue). *)
Theorem advance_empty_queue fuel t :
  jack t = [] -> advance fuel t = Raise IndexError.
Proof. intros Hj. unfold advance. by rewrite Hj. Qed.

Lemma advance_empty_queue_witness :
  advance 0 {| jack := []; curr_token := None; token_type := None |} = Raise IndexError.
Proof. by apply advance_empty_queue. Defined.

(** ** Kind and payload agree *)

(** What a token of each kind looks like. *)
Definition token_ok (ty : Tables.token_type) (v : string) : Prop :=
  match ty with
  | SYMBOL => (exists c, v = String c "" /\ c ∈ symbol_set) \/ v ∈ two_char_ops
  | INT_CONSTANT => v <> "" /\ all_digits v = true
  | STRING_CONSTANT => str_forallb (fun x => negb (is_quote x)) v = true
  | KEYWORD => is_Some (keyword_dict !! v)
  | IDENTIFIER =>
      v <> "" /\ str_forallb (fun x => negb (is_symbol x)) v = true /\ keyword_dict !! v = None
  end.

Lemma scan_string_no_quote full curr q v q' :
  str_forallb (fun x => negb (is_quote x)) full = true ->
  scan_string full curr q = Ok (v, q') -> str_forallb (fun x => negb (is_quote x)) v = true.
Proof.
  revert full curr. induction q as [|next q IH]; intros full curr Hf; cbn [scan_string];
    destruct (find_index is_quote curr) as [i|] eqn:E; try discriminate;
    try (intros [= <- _]; apply find_index_Some in E as (? & _ & _ & Hi);
         rewrite str_forallb_app; by rewrite Hf, Hi).
  apply IH. rewrite !str_forallb_app, Hf. apply find_index_None in E. rewrite E. done.
Qed.

(** The integer branch returns the leading digit run of a whitespace-free
    fragment. *)
(** A whitespace-free fragment that starts with a digit is all digits,
    or a non-empty digit run followed by a character that is neither a
    digit nor blank. *)
Lemma digit_fragment_split c r :
  py_isdigit c = true -> str_forallb not_space (String c r) = true ->
  all_digits (String c r) = true \/
  exists d c' r', String c r = d ++ String c' r' /\ d <> "" /\ all_digits d = true /\
                  py_isdigit c' = false /\ py_isspace c' = false.
Proof.
  intros Hc Hs. destruct (digit_run_split (String c r)) as [Hall|(d & c' & r' & E & Hd & Hc')];
    [by left|right].
  exists d, c', r'. repeat split; [done| |done|done|].
  - intros ->. rewrite append_nil_l in E. injection E as -> _. congruence.
  - rewrite E, str_forallb_app in Hs. apply andb_prop in Hs as [_ Hs].
    destruct (andb_prop _ _ Hs : not_space c' = true /\ _) as [Hs' _].
    unfold not_space in Hs'. by destruct (py_isspace c').
Qed.

(** A successful integer loop stops exactly at the end of the leading
    digit run. *)
Lemma int_scan_Ok_split fuel c r n :
  py_isdigit c = true -> str_forallb not_space (String c r) = true ->
  int_scan fuel (String c r) 0 = Ok n ->
  exists d c' r', String c r = d ++ String c' r' /\ d <> "" /\ all_digits d = true /\
                  py_isdigit c' = false /\ py_isspace c' = false /\ n = String.length d.
Proof.
  intros Hc Hs Hn.
  destruct (digit_fragment_split c r Hc Hs) as [Hall|(d & c' & r' & E & Hne & Hd & Hc' & Hsp)].
  - by rewrite int_scan_digits_forever in Hn.
  - exists d, c', r'. do 5 (split; [done|]). rewrite E in Hn.
    pose proof (int_scan_stops d c' r' 0 (Nat.max fuel (S (String.length d))) Hne Hd Hc' Hsp
                  ltac:(lia) ltac:(lia)) as Hmax.
    rewrite (int_scan_mono _ (Nat.max fuel (S (String.length d))) _ _ _ Hn ltac:(lia)) in Hmax.
    by apply Ok_inj in Hmax.
Qed.

Lemma int_scan_digit_run fuel c r n :
  py_isdigit c = true -> str_forallb not_space (String c r) = true ->
  int_scan fuel (String c r) 0 = Ok n ->
  slice_to (String c r) n <> "" /\ all_digits (slice_to (String c r) n) = true.
Proof.
  intros Hc Hs Hn. destruct (int_scan_Ok_split _ _ _ _ Hc Hs Hn) as (d & c' & r' & E & Hne & Hd & _ & _ & ->).
  rewrite E. by rewrite slice_to_app.
Qed.

(** C3 Kind/payload consistency: on a deque satisfying the queue
    invariant, every successful [advance] sets [token_type] and
    [curr_token] to a consistent pair: a [SYMBOL] is one symbol
    character or a two-character operator, an [INT_CONSTANT] a non-empty
    digit run, a [STRING_CONSTANT] has no quote, a [KEYWORD] is a key of
    [keyword_dict], an [IDENTIFIER] is a non-empty text without symbols
    that is not a keyword. *)
Theorem advance_token_ok fuel t t' :
  queue_ok (jack t) -> advance fuel t = Ok t' ->
  exists ty v, token_type t' = Some ty /\ curr_token t' = Some v /\ token_ok ty v.
Proof.
  intros Hok (c & r & q & Hj & Hcase)%advance_Ok_cases. rewrite Hj in Hok.
  apply Forall_cons_iff' in Hok as [Hs _]. apply fragment_ok_no_space in Hs.
  destruct Hcase as [(_ & Htwo & ->)|[(Hsym & _ & ->)|[(_ & _ & v & Hv & Hcur & Hty)|
                     [(_ & _ & Hint & n & Hn & ->)|
                      (Hsym & _ & _ & w & q' & Hw & ->)]]]].
  - exists SYMBOL, (slice_to (String c r) 2). do 2 (split; [reflexivity|]).
    right. apply andb_prop in Htwo as [_ Htwo]. by apply bool_decide_eq_true in Htwo.
  - exists SYMBOL, (String c ""). do 2 (split; [reflexivity|]).
    left. exists c. split; [reflexivity|]. by apply is_symbol_spec.
  - exists STRING_CONSTANT, (strip v). do 2 (split; [done|]). cbn [token_ok].
    by apply str_forallb_strip, (scan_string_no_quote "" r q v (jack t')).
  - exists INT_CONSTANT, (slice_to (String c r) n). do 2 (split; [reflexivity|]).
    rewrite is_int_single in Hint. by apply (int_scan_digit_run fuel c r n).
  - assert (w <> "" /\ str_forallb (fun x => negb (is_symbol x)) w = true) as [Hne Hns].
    { destruct Hw as [(i & Hi & -> & _)|(Hi & -> & _)].
      - pose proof (find_index_symbol_pos _ _ _ Hsym Hi).
        apply find_index_Some in Hi as (? & _ & _ & Hi). split; [|done].
        intros E. apply (f_equal String.length) in E. rewrite length_slice_to in E.
        cbn [String.length] in E. lia.
      - split; [discriminate|]. by apply find_index_None. }
    destruct (is_keyword w) eqn:Hk; [exists KEYWORD, w | exists IDENTIFIER, w];
      do 2 (split; [reflexivity|]); cbn [token_ok].
    + by apply is_keyword_spec.
    + repeat split; auto. apply eq_None_not_Some. intros Hsome.
      apply is_keyword_spec in Hsome. congruence.
Qed.

Lemma advance_token_ok_witness :
  exists ty v,
    token_type {| jack := ["x"]; curr_token := Some "let"; token_type := Some KEYWORD |} = Some ty /\
    curr_token {| jack := ["x"]; curr_token := Some "let"; token_type := Some KEYWORD |} = Some v /\
    token_ok ty v.
Proof.
  apply (advance_token_ok 0 {| jack := ["let"; "x"]; curr_token := None; token_type := None |});
    [repeat constructor | reflexivity].
Defined.

(** C10 A fragment made only of symbol characters is always read as a
    [SYMBOL], never as an identifier or keyword. *)
Theorem advance_symbols_only fuel t s q :
  jack t = s :: q -> s <> "" -> str_forallb is_symbol s = true ->
  exists t', advance fuel t = Ok t' /\ token_type t' = Some SYMBOL.
Proof.
  intros Hj Hne Hs. destruct s as [|c r]; [done|].
  rewrite (advance_unfold _ _ _ _ _ Hj). apply andb_prop in Hs as [-> _].
  destruct (_ && _); eauto.
Qed.

Lemma advance_symbols_only_witness :
  exists t', advance 0 {| jack := ["();"]; curr_token := None; token_type := None |} = Ok t' /\
             token_type t' = Some SYMBOL.
Proof. apply (advance_symbols_only 0 _ "();" []); [reflexivity | discriminate | reflexivity]. Defined.

End JackTokenizer.
