(* ===== verification/Tokens.v ===== *)
(** * The token loop: fuel, reachability and termination

    The loop [while tokenizer.has_more_tokens(): tokenizer.advance()]
    of [JackAnalyzer.analyze] (lines 17-18) as [tokens], which collects
    the [(token_type, curr_token)] pair each iteration reads; the
    driver's loop of [Driver] is this loop with the writes added.  The
    relation [reach] is the reflexive-transitive closure of successful
    [advance] steps.

    Outside string constants each step consumes exactly the text of its
    token ([advance_conserves]), so the tokens joined in order give back
    the deque's text ([tokens_text_conserved]).

    Theorems: the queue invariant holds in every reachable state (rule
    induction on [reach]); fuel above [queue_size] is adequate: the loop runs out of
    it only when a reachable state has an all-digit fragment at its
    front, and from such a state it runs out of every fuel, i.e. the
    Python loop does not terminate. *)

From S2P Require Import Prelude PyStr Tables Tokenizer.
Local Open Scope string_scope.
Local Open Scope result_scope.

Module TokenStream.
Import JackTokenizer.

(** A token as the driver reads it. *)
Definition token : Type := (Tables.token_type * string)%type.

(** Lines 17-18: one [advance] per iteration while the deque is not
    empty.  The [fuel] bounds the iterations and is also the fuel of
    each [advance]. *)
Fixpoint tokens (fuel : nat) (t : tokenizer) : result (list token) :=
  match fuel with
  | O => OutOfFuel
  | S f =>
      if has_more_tokens t then
        let* t' := advance fuel t in
        let* rest := tokens f t' in
        Ok (match token_type t', curr_token t' with
            | Some ty, Some v => (ty, v) :: rest
            | _, _ => rest
            end)
      else Ok []
  end.

(** States reachable by successful [advance] calls. *)
Inductive reach : tokenizer -> tokenizer -> Prop :=
| reach_refl t : reach t t
| reach_step t t1 t2 fuel : advance fuel t = Ok t1 -> reach t1 t2 -> reach t t2.

(** A state whose front fragment is a non-empty run of digits: the
    integer loop cannot leave it. *)
Definition digit_front (t : tokenizer) : Prop :=
  exists d q, jack t = d :: q /\ d <> "" /\ all_digits d = true.

(** A fragment without a double quote: no string constant starts in it. *)
Definition quote_free (s : string) : bool := str_forallb (fun x => negb (is_quote x)) s.

(** [''.join] of the token values, in order. *)
Definition tokens_text (toks : list token) : string := concat_all (map snd toks).

(** ** Fuel and [advance] *)

Lemma int_scan_cases fuel s k :
  int_scan fuel s k = OutOfFuel \/ exists n, int_scan fuel s k = Ok n.
Proof.
  revert k. induction fuel as [|f IH]; intros k; cbn [int_scan]; [by left|].
  destruct (is_int _); [apply IH | right; eauto].
Qed.

Lemma scan_string_not_OutOfFuel full curr q : scan_string full curr q <> OutOfFuel.
Proof.
  revert full curr. induction q as [|next q IH]; intros full curr;
    rewrite scan_string_unfold; destruct (find_index is_quote curr); try done; apply IH.
Qed.

(** [advance] runs out of fuel only in the integer loop. *)
Lemma advance_OutOfFuel_inv fuel t :
  advance fuel t = OutOfFuel ->
  exists c r q, jack t = String c r :: q /\ py_isdigit c = true /\
                int_scan fuel (String c r) 0 = OutOfFuel.
Proof.
  unfold advance. destruct (jack t) as [|[|c r] q]; cbn [popleft char_at0 rbind]; try discriminate.
  destruct (is_symbol c); [destruct (_ && _); discriminate|].
  destruct (is_quote c).
  { destruct (scan_string "" _ q) as [[]| |] eqn:E; cbn; try discriminate.
    by apply scan_string_not_OutOfFuel in E. }
  destruct (is_int (String c "")) eqn:Hi; [|by destruct (find_index _ _)].
  rewrite is_int_single in Hi.
  destruct (int_scan fuel _ 0) eqn:E; cbn; try discriminate. eauto 6.
Qed.

(** Every result of [advance] other than [OutOfFuel] stays the same
    with more fuel. *)
Lemma advance_fuel_mono fuel fuel' t res :
  advance fuel t = res -> res <> OutOfFuel -> fuel <= fuel' -> advance fuel' t = res.
Proof.
  intros <- Hr Hle. destruct (jack t) as [|[|c r] q] eqn:Hj; try (unfold advance; by rewrite Hj).
  rewrite (advance_unfold fuel _ _ _ _ Hj) in Hr |- *. rewrite (advance_unfold fuel' _ _ _ _ Hj).
  destruct (is_symbol c), (is_quote c), (is_int (String c "")); try done.
  destruct (int_scan_cases fuel (String c r) 0) as [E|[n E]].
  - by rewrite E in Hr.
  - by rewrite E, (int_scan_mono _ _ _ _ _ E Hle).
Qed.

(** Two runs of [advance] that both return agree. *)
Lemma advance_fuel_agree f1 f2 t t1 res :
  advance f1 t = Ok t1 -> advance f2 t = res -> res <> OutOfFuel -> res = Ok t1.
Proof.
  intros H1 H2 Hr. destruct (Nat.le_total f1 f2) as [Hle|Hle].
  - rewrite <- H2. by apply (advance_fuel_mono f1).
  - rewrite <- H1. symmetry. by apply (advance_fuel_mono f2 f1 t res).
Qed.

(** With fuel above the fragment's length the integer loop stops unless
    the fragment is all digits. *)
Lemma int_scan_enough_fuel fuel c r :
  py_isdigit c = true -> str_forallb not_space (String c r) = true ->
  String.length (String c r) < fuel ->
  int_scan fuel (String c r) 0 = OutOfFuel -> all_digits (String c r) = true.
Proof.
  intros Hc Hs Hf E.
  destruct (digit_fragment_split c r Hc Hs) as [Hall|(d & c' & r' & Ed & Hne & Hd & Hc' & Hsp)];
    [done|exfalso].
  rewrite Ed, length_append in Hf. rewrite Ed, (int_scan_stops d c' r' 0 fuel) in E; try done; lia.
Qed.

Lemma advance_enough_fuel fuel t s q :
  queue_ok (jack t) -> jack t = s :: q -> String.length s < fuel ->
  advance fuel t = OutOfFuel -> all_digits s = true.
Proof.
  intros Hok Hj Hf (c & r & q' & Hj' & Hc & E)%advance_OutOfFuel_inv.
  rewrite Hj' in Hj. injection Hj as <- _. rewrite Hj' in Hok.
  apply Forall_cons_iff' in Hok as [Hs _]. apply fragment_ok_no_space in Hs.
  by apply (int_scan_enough_fuel fuel).
Qed.

Lemma advance_Ok_has_more fuel t t' : advance fuel t = Ok t' -> has_more_tokens t = true.
Proof. unfold advance, has_more_tokens. by destruct (jack t). Qed.

Lemma digit_front_OutOfFuel t fuel : digit_front t -> advance fuel t = OutOfFuel.
Proof. intros (d & q & Hj & Hne & Hd). by apply (advance_int_diverges t d q). Qed.

(** After a successful [advance] both attributes are set. *)
Lemma advance_Ok_some fuel t t' :
  advance fuel t = Ok t' -> exists ty v, token_type t' = Some ty /\ curr_token t' = Some v.
Proof.
  intros (c & r & q & _ & Hcase)%advance_Ok_cases.
  destruct Hcase as [(_ & _ & ->)|[(_ & _ & ->)|[(_ & _ & v & _ & -> & ->)|[(_ & _ & _ & n & _ & ->)|
                     (_ & _ & _ & w & q' & _ & ->)]]]]; cbn; eauto.
Qed.

Lemma queue_ok_head s q : queue_ok (s :: q) -> s <> "".
Proof.
  intros [Hs _]%Forall_cons_iff'. unfold fragment_ok in Hs.
  destruct (String.eqb_spec s ""); [discriminate|done].
Qed.

Lemma concat_all_requeue s q : concat_all (requeue s q) = s ++ concat_all q.
Proof. unfold requeue. by destruct (String.eqb_spec s "") as [->|]. Qed.

Lemma requeue_forall p s q :
  str_forallb p s = true -> Forall (fun x => str_forallb p x = true) q ->
  Forall (fun x => str_forallb p x = true) (requeue s q).
Proof. unfold requeue. destruct (String.eqb s ""); [done|by constructor]. Qed.

(** Outside string constants [advance] consumes exactly the text of its
    token from the front of the deque, and keeps the deque quote-free. *)
Lemma advance_conserves fuel t t' :
  Forall (fun s => quote_free s = true) (jack t) -> advance fuel t = Ok t' ->
  exists ty v, token_type t' = Some ty /\ curr_token t' = Some v /\
    concat_all (jack t) = v ++ concat_all (jack t') /\
    Forall (fun s => quote_free s = true) (jack t').
Proof.
  intros Hq (c & r & q & Hj & Hcase)%advance_Ok_cases. rewrite Hj in Hq |- *.
  apply Forall_cons_iff' in Hq as [Hs Hq]. pose proof Hs as Hs'.
  unfold quote_free in Hs'. cbn [str_forallb] in Hs'. apply andb_prop in Hs' as [Hc Hr].
  change (concat_all (String c r :: q)) with (String c r ++ concat_all q).
  destruct Hcase as [(_ & _ & ->)|[(_ & _ & ->)|[(_ & Hqt & _)|[(_ & _ & _ & n & _ & ->)|
                     (_ & _ & _ & w & q' & [(i & _ & -> & ->)|(_ & -> & ->)] & ->)]]]];
    [| |by rewrite Hqt in Hc| | |];
    cbn [jack token_type curr_token]; eexists _, _; (split; [reflexivity|]); (split; [reflexivity|]).
  - rewrite concat_all_requeue, append_assoc, slice_to_from.
    split; [done|]. by apply requeue_forall; [apply str_forallb_slice_from|].
  - rewrite concat_all_requeue. split; [reflexivity|]. by apply requeue_forall.
  - rewrite concat_all_requeue, append_assoc, slice_to_from.
    split; [done|]. by apply requeue_forall; [apply str_forallb_slice_from|].
  - change (concat_all (?x :: ?l)) with (x ++ concat_all l).
    rewrite append_assoc, slice_to_from. split; [done|].
    constructor; [by apply str_forallb_slice_from|done].
  - by split.
Qed.

(** ** Properties of the loop *)

(** C4 Invariant: in every state the loop can reach from a deque that
    [load_file] could produce, the deque still holds only non-empty,
    whitespace-free fragments. *)
Theorem reach_queue_ok t t' : queue_ok (jack t) -> reach t t' -> queue_ok (jack t').
Proof.
  intros Hok Hr. induction Hr as [t|t t1 t2 fuel Ha _ IH]; [done|].
  apply IH. by eapply advance_preserves_queue_ok.
Qed.

Definition let_x_10 : tokenizer :=
  {| jack := ["let"; "x"; "="; "10"; ";"]; curr_token := None; token_type := None |}.

Definition at_10 : tokenizer :=
  {| jack := ["10"; ";"]; curr_token := Some "="; token_type := Some SYMBOL |}.

Lemma reach_let_x_10 : reach let_x_10 at_10.
Proof.
  apply (reach_step _ {| jack := ["x"; "="; "10"; ";"]; curr_token := Some "let";
                         token_type := Some KEYWORD |} _ 1); [vm_compute; reflexivity|].
  apply (reach_step _ {| jack := ["="; "10"; ";"]; curr_token := Some "x";
                         token_type := Some IDENTIFIER |} _ 1); [vm_compute; reflexivity|].
  apply (reach_step _ at_10 _ 1); [vm_compute; reflexivity|]. constructor.
Qed.

Lemma reach_queue_ok_witness : queue_ok (jack at_10).
Proof. apply (reach_queue_ok let_x_10 at_10); [repeat constructor | exact reach_let_x_10]. Defined.

(** C5 Liveness (fuel adequacy): with more fuel than characters in the
    deque, the loop runs out of fuel only by reaching a state whose
    front fragment is a run of digits, where the integer loop cannot
    stop; every other run ends, with its tokens or an exception. *)
Theorem tokens_fuel_adequate fuel t :
  queue_ok (jack t) -> queue_size (jack t) < fuel -> tokens fuel t = OutOfFuel ->
  exists t', reach t t' /\ digit_front t'.
Proof.
  revert t. induction fuel as [|f IH]; intros t Hok Hsz H; [lia|].
  cbn [tokens] in H. destruct (has_more_tokens t) eqn:Hm; [|discriminate].
  destruct (advance (S f) t) as [t1| e|] eqn:Ha; cbn [rbind] in H; [|discriminate|].
  - destruct (tokens f t1) eqn:Ht; cbn [rbind] in H; try discriminate.
    destruct (IH t1) as (t2 & Hr & Hd); [by eapply advance_preserves_queue_ok
      | pose proof (advance_decreases_size _ _ _ Ha); lia | done |].
    exists t2. split; [by eapply reach_step|done].
  - exists t. split; [constructor|].
    unfold has_more_tokens in Hm. destruct (jack t) as [|s q] eqn:Hj; [discriminate|].
    rewrite queue_size_cons in Hsz. exists s, q. split; [done|]. split; [by eapply queue_ok_head|].
    apply (advance_enough_fuel (S f) t s q); [by rewrite Hj|done|lia|done].
Qed.

Lemma tokens_fuel_adequate_witness :
  exists t', reach let_x_10 t' /\ digit_front t'.
Proof.
  apply (tokens_fuel_adequate 20 let_x_10); [repeat constructor | vm_compute; lia |].
  vm_compute. reflexivity.
Defined.

(** C6 Non-termination: once a reachable state has an all-digit
    fragment in front (the [10] of [let x = 10 ;]), the analyzer's
    loop runs out of every amount of fuel: the Python program does not
    terminate on such input. *)
Theorem tokens_diverges t t' :
  reach t t' -> digit_front t' -> forall fuel, tokens fuel t = OutOfFuel.
Proof.
  induction 1 as [t|t t1 t2 f0 Ha Hr IH]; intros Hd [|f]; try done; cbn [tokens].
  - pose proof Hd as HD. destruct Hd as (d & q & Hj & _). unfold has_more_tokens. rewrite Hj.
    by rewrite (digit_front_OutOfFuel _ _ HD).
  - rewrite (advance_Ok_has_more _ _ _ Ha).
    destruct (advance (S f) t) as [t1'| e|] eqn:E; cbn [rbind]; [| |done];
      (pose proof (advance_fuel_agree _ _ _ _ _ Ha E ltac:(discriminate)) as Hag;
       simplify_eq Hag); intros <-.
    by rewrite IH.
Qed.

Lemma tokens_diverges_witness : tokens 1000 let_x_10 = OutOfFuel.
Proof.
  apply (tokens_diverges let_x_10 at_10 reach_let_x_10).
  exists "10", [";"]. split; [reflexivity|]. split; [discriminate|reflexivity].
Defined.

(** On a deque without double quotes, the values of the tokens the loop
    reads, joined in order, give back the text of the deque. *)
Lemma tokens_text_conserved fuel t toks :
  Forall (fun s => quote_free s = true) (jack t) -> tokens fuel t = Ok toks ->
  tokens_text toks = concat_all (jack t).
Proof.
  revert t toks. induction fuel as [|f IH]; intros t toks Hq H; [discriminate|].
  cbn [tokens] in H. unfold has_more_tokens in H. destruct (jack t) eqn:Hj.
  { apply Ok_inj in H as <-. done. }
  rewrite <- Hj in Hq. cbn iota in H.
  apply rbind_Ok_inv in H as (t1 & Ha & H). apply rbind_Ok_inv in H as (rest & Hrest & H).
  apply Ok_inj in H as <-. rewrite <- Hj.
  destruct (advance_conserves _ _ _ Hq Ha) as (ty & v & -> & -> & -> & Hq1).
  unfold tokens_text in *. cbn [map snd concat_all foldr]. by rewrite <- (IH t1 rest Hq1 Hrest).
Qed.

End TokenStream.
