(* ===== verification/LexSpec.v ===== *)
(** * The lexing specification and the refinement of [advance]

    The specification's scanner (its section on the tokenizer: symbol
    with the longest match first, string constant across fragments,
    maximal digit run, identifier or keyword up to the first symbol) as
    an inductive relation [lex_step q tok q'] on fragment queues: from
    queue [q] one token [tok] is read and the queue becomes [q'].  The
    contract of [push_front] (an empty string is not pushed) is
    [push_front]; a string constant's body is the relation
    [string_body].  The relation is stated with the tables' sets and
    the dictionary, not with the code's boolean tests.

    Theorems: soundness (every successful [advance] is a [lex_step] of
    the specification, a refinement of the relation by the function)
    and completeness (every [lex_step] from a queue the loader can
    produce is taken by [advance] given fuel above the queue size,
    except the step of [lex_int_end]: an integer constant that ends its
    fragment, where the code's loop diverges). *)

From S2P Require Import Prelude PyStr Tables Tokenizer Tokens.
Local Open Scope string_scope.
Local Open Scope result_scope.

Module LexSpec.
Import JackTokenizer TokenStream.

(** [push_front(s)]: pushing an empty string is a no-op. *)
Definition push_front (s : string) (q : list string) : list string :=
  match s with EmptyString => q | _ => s :: q end.

Definition symbol_free (s : string) : bool := str_forallb (fun x => negb (is_symbol x)) s.

(** The body of a string constant after its opening quote: the text up
    to the first closing quote, across fragments re-joined by one
    space; the text after the quote is pushed back. *)
Inductive string_body : string -> list string -> string -> list string -> Prop :=
| sb_close pre rest q :
    quote_free pre = true ->
    string_body (pre ++ String quote_char rest) q pre (push_front rest q)
| sb_more cur next q v q' :
    quote_free cur = true -> string_body next q v q' ->
    string_body cur (next :: q) (cur ++ " " ++ v) q'.

(** The kind of a word: a keyword exactly when the dictionary has it. *)
Definition word_kind (w : string) : Tables.token_type :=
  match keyword_dict !! w with Some _ => KEYWORD | None => IDENTIFIER end.

(** One step of the specified scanner. *)
Inductive lex_step : list string -> token -> list string -> Prop :=
| lex_sym2 op r q :
    op ∈ two_char_ops ->
    lex_step ((op ++ r) :: q) (SYMBOL, op) (push_front r q)
| lex_sym1 c r q :
    c ∈ symbol_set ->
    (forall op r', op ∈ two_char_ops -> String c r <> op ++ r') ->
    lex_step (String c r :: q) (SYMBOL, String c "") (push_front r q)
| lex_string body q v q' :
    string_body body q v q' ->
    lex_step (String quote_char body :: q) (STRING_CONSTANT, strip v) q'
| lex_int d c r q :
    d <> "" -> all_digits d = true -> py_isdigit c = false ->
    lex_step ((d ++ String c r) :: q) (INT_CONSTANT, d) (String c r :: q)
| lex_int_end d q :
    d <> "" -> all_digits d = true ->
    lex_step (d :: q) (INT_CONSTANT, d) q
| lex_word c w rest q :
    c ∉ symbol_set -> c <> quote_char -> py_isdigit c = false ->
    symbol_free (String c w) = true ->
    match rest with EmptyString => True | String c' _ => c' ∈ symbol_set end ->
    lex_step ((String c w ++ rest) :: q) (word_kind (String c w), String c w) (push_front rest q).

(** ** Lemmas linking the code's tests to the specification's sets *)

Lemma requeue_push_front s q : requeue s q = push_front s q.
Proof. unfold requeue. by destruct s. Qed.

Lemma is_keyword_word_kind w : (if is_keyword w then KEYWORD else IDENTIFIER) = word_kind w.
Proof.
  unfold word_kind. destruct (is_keyword w) eqn:E.
  - apply is_keyword_spec in E as [k ->]. done.
  - destruct (keyword_dict !! w) eqn:E'; [|done].
    exfalso. assert (is_keyword w = true) by (apply is_keyword_spec; eauto). congruence.
Qed.

Lemma is_quote_spec c : is_quote c = true <-> c = quote_char.
Proof. unfold is_quote. by destruct (Ascii.eqb_spec c quote_char). Qed.

(** The string loop computes exactly the relation [string_body]. *)
Lemma scan_string_body full cur q v q' :
  scan_string full cur q = Ok (v, q') ->
  exists v0, v = full ++ v0 /\ string_body cur q v0 q'.
Proof.
  revert full cur v q'. induction q as [|next q IH]; intros full cur v q';
    rewrite scan_string_unfold; destruct (find_index is_quote cur) as [i|] eqn:Ei;
    try discriminate.
  1,2: intros [= <- <-]; exists (slice_to cur i); split; [done|];
    destruct (find_index_Some _ _ _ Ei) as (c & Hc & Hq%is_quote_spec & Hpre);
    rewrite <- (slice_to_from cur i) at 1; rewrite Hc, Hq, requeue_push_front;
    replace (S i) with (i + 1) by lia; by constructor.
  intros (v0 & -> & Hb)%IH. exists (cur ++ " " ++ v0). split; [by rewrite !append_assoc|].
  constructor; [by apply find_index_None|done].
Qed.

Lemma string_body_scan full cur q v q' :
  string_body cur q v q' -> scan_string full cur q = Ok (full ++ v, q').
Proof.
  intros Hb. revert full. induction Hb as [pre rest q Hpre|cur next q v q' Hcur Hb IH]; intros full.
  - rewrite scan_string_unfold, find_index_app by done. cbn [find_index].
    change (is_quote quote_char) with true. cbn [option_map]. rewrite Nat.add_0_r.
    rewrite slice_to_app.
    rewrite slice_from_app_add, requeue_push_front. by destruct q.
  - rewrite scan_string_unfold, find_index_none_of by done. rewrite IH.
    by rewrite !append_assoc.
Qed.

(** The code's two-character test fails exactly when no operator of
    the list starts the fragment. *)
Lemma no_two_char_prefix c r :
  (2 <=? String.length (String c r))%nat && is_two_char_op (slice_to (String c r) 2) = false ->
  forall op r', op ∈ two_char_ops -> String c r <> op ++ r'.
Proof.
  intros Htwo op r' Hop E. destruct (two_char_ops_shape _ Hop) as (c1 & c2 & -> & _).
  rewrite E, !append_cons, append_nil_l in Htwo. cbn [slice_to String.length] in Htwo.
  replace (is_two_char_op _) with true in Htwo by (symmetry; by apply bool_decide_eq_true).
  by rewrite andb_true_r in Htwo.
Qed.

Lemma not_space_tail d c r :
  str_forallb not_space (d ++ String c r) = true -> py_isspace c = false.
Proof.
  rewrite str_forallb_app. intros [_ [Hc _]%andb_prop]%andb_prop.
  unfold not_space in Hc. by destruct (py_isspace c).
Qed.

(** ** Refinement *)

(** C1 Soundness (refinement): on a deque that satisfies the queue
    invariant, every successful [advance] reads one token of the
    specified scanner: the token it sets and the deque it leaves are a
    [lex_step] of the specification. *)
Theorem advance_refines_lex fuel t t' :
  queue_ok (jack t) -> advance fuel t = Ok t' ->
  exists ty v, token_type t' = Some ty /\ curr_token t' = Some v /\
               lex_step (jack t) (ty, v) (jack t').
Proof.
  intros Hok Ha. destruct (advance_Ok_cases _ _ _ Ha) as (c & r & q & Hj & Hcase).
  rewrite Hj in Hok |- *. apply Forall_cons_iff' in Hok as [Hs%fragment_ok_no_space _].
  destruct Hcase as [(Hsym & Htwo & ->)|[(Hsym & Htwo & ->)|[(Hsym & Hqt & v & Hv & -> & ->)|
    [(Hsym & Hqt & Hint & n & Hn & ->)|(Hsym & Hqt & Hint & w & q' & Hw & ->)]]]];
    cbn [jack token_type curr_token]; eexists _, _; (split; [reflexivity|]); (split; [reflexivity|]).
  - apply andb_prop in Htwo as [_ Hop%bool_decide_eq_true].
    rewrite requeue_push_front, <- (slice_to_from (String c r) 2) at 1. by constructor.
  - rewrite requeue_push_front. constructor; [by apply is_symbol_spec|].
    by apply no_two_char_prefix.
  - apply is_quote_spec in Hqt as ->. apply scan_string_body in Hv as (v0 & -> & Hb).
    rewrite append_nil_l. by constructor.
  - rewrite is_int_single in Hint.
    destruct (int_scan_Ok_split _ _ _ _ Hint Hs Hn) as (d & c' & r' & -> & Hne & Hd & Hc' & _ & ->).
    rewrite slice_to_app, slice_from_app, requeue_nonempty. by constructor.
  - rewrite is_keyword_word_kind. rewrite is_int_single in Hint.
    assert (c ∉ symbol_set) by (intros ?%is_symbol_spec; congruence).
    assert (c <> quote_char) by (intros ->; discriminate Hqt).
    destruct Hw as [(i & Hi & -> & ->)|(Hi & -> & ->)].
    + pose proof (find_index_symbol_pos _ _ _ Hsym Hi) as Hpos.
      destruct (find_index_Some _ _ _ Hi) as (c0 & Hc0 & Hsym0 & Hfree).
      destruct i as [|i]; [lia|]. cbn [slice_to] in Hfree |- *.
      replace (slice_from (String c r) (S i) :: q) with (push_front (slice_from (String c r) (S i)) q)
        by (by rewrite Hc0).
      rewrite <- (slice_to_from (String c r) (S i)) at 1. cbn [slice_to].
      constructor; try done. by rewrite Hc0, <- is_symbol_spec.
    + rewrite <- (append_nil_r (String c r)) at 1.
      change q with (push_front "" q). constructor; try done. by apply find_index_None.
Qed.

Lemma advance_refines_lex_witness :
  exists ty v, token_type {| jack := ["x"]; curr_token := Some "<="; token_type := Some SYMBOL |}
               = Some ty /\
    curr_token {| jack := ["x"]; curr_token := Some "<="; token_type := Some SYMBOL |} = Some v /\
    lex_step ["<=x"] (ty, v) ["x"].
Proof.
  apply (advance_refines_lex 0 {| jack := ["<=x"]; curr_token := None; token_type := None |});
    [repeat constructor | reflexivity].
Defined.

(** C2 Completeness (refinement): from a deque that satisfies the
    queue invariant, every step of the specified scanner is the step
    [advance] takes, given fuel above the deque's size, unless the
    front fragment is a run of digits (the step [lex_int_end], on which
    the code's loop diverges). *)
Theorem advance_complete fuel t ty v q' :
  queue_ok (jack t) -> ~ digit_front t -> queue_size (jack t) < fuel ->
  lex_step (jack t) (ty, v) q' ->
  advance fuel t = Ok {| jack := q'; curr_token := Some v; token_type := Some ty |}.
Proof.
  intros Hok Hnd Hf Hl. remember (jack t) as jq eqn:Hj. remember (ty, v) as tok eqn:Htok.
  destruct Hl as [op r q Hop|c r q Hc Hno|body q v0 q0 Hb|d c r q Hne Hd Hc|d q Hne Hd|
                  c w rest q Hc Hq Hdig Hfree Hrest];
    injection Htok as <- <-; symmetry in Hj; rewrite ?queue_size_cons in Hf.
  - destruct (two_char_ops_shape _ Hop) as (c1 & c2 & -> & _).
    rewrite !append_cons, append_nil_l in Hj.
    by rewrite (advance_two_char_symbol _ _ _ _ _ _ Hj Hop), requeue_push_front.
  - rewrite (advance_one_char_symbol _ _ _ _ _ Hj Hc), requeue_push_front; [done|].
    intros Hop. apply (Hno _ (slice_from (String c r) 2) Hop). by rewrite slice_to_from.
  - rewrite (advance_unfold _ _ _ _ _ Hj), quote_not_symbol.
    change (is_quote quote_char) with true. cbn iota.
    rewrite (string_body_scan "" _ _ _ _ Hb). cbn [rbind]. by rewrite append_nil_l.
  - apply Forall_cons_iff' in Hok as [Hs%fragment_ok_no_space _].
    rewrite length_append in Hf.
    apply (advance_int_constant _ _ _ _ _ _ Hj Hne Hd Hc); [|lia].
    by apply not_space_tail in Hs.
  - exfalso. apply Hnd. by exists d, q.
  - rewrite (advance_identifier _ _ _ _ _ _ Hj Hfree), is_keyword_word_kind, requeue_push_front;
      [done| |done|].
    + unfold is_quote. by destruct (Ascii.eqb_spec c quote_char).
    + destruct rest; [done|]. by apply is_symbol_spec.
Qed.

Lemma advance_complete_witness :
  advance 10 {| jack := ["x<y"]; curr_token := None; token_type := None |}
  = Ok {| jack := ["<y"]; curr_token := Some "x"; token_type := Some IDENTIFIER |}.
Proof.
  apply (advance_complete 10 _ IDENTIFIER "x" ["<y"]).
  - repeat constructor.
  - intros (d & q & E & _ & Hd). injection E as <- _. discriminate Hd.
  - vm_compute. lia.
  - replace IDENTIFIER with (word_kind "x") by (vm_compute; reflexivity).
    apply (lex_word "x" "" "<y" []); [decide_by_compute|discriminate|reflexivity|reflexivity|].
    decide_by_compute.
Defined.

(** C7 Divergence from the specification: when the front fragment is
    a run of digits (the [10] of [let x = 10 ;]) the specification
    reads it as one integer constant, while [advance] runs out of every
    amount of fuel: the loop of lines 79-80 never stops. *)
Theorem advance_misses_int_end t d q :
  jack t = d :: q -> d <> "" -> all_digits d = true ->
  lex_step (jack t) (INT_CONSTANT, d) q /\ forall fuel, advance fuel t = OutOfFuel.
Proof.
  intros Hj Hne Hd. split.
  - rewrite Hj. by constructor.
  - intros fuel. by apply (advance_int_diverges t d q).
Qed.

Lemma advance_misses_int_end_witness :
  lex_step ["10"; ";"] (INT_CONSTANT, "10") [";"]
  /\ forall fuel, advance fuel TokenStream.at_10 = OutOfFuel.
Proof. apply (advance_misses_int_end TokenStream.at_10 "10" [";"]); [reflexivity|discriminate|reflexivity]. Defined.

End LexSpec.
