(* ===== verification/Loader.v ===== *)
(** * [JackTokenizer.load_file]: from source text to fragments

    [load_file] (lines 119-140) reads the file, splits it into lines,
    strips each line, cuts it at the first [//], blanks the lines of
    block comments with the flag [in_comment], splits every line at
    whitespace and finally wraps the words in [deque(words)].  The file
    system is a store [gmap string string] from file names to contents;
    the module's global names are those of line 1, where [deque] is not
    imported, so [deque(words)] raises [NameError].

    Theorems: the words satisfy the tokenizer's queue invariant; the
    block-comment pass is a two-state machine over lines whose comment
    state is only left by a line that starts or ends with [*/]; a
    line [/*a//b] is cut to [/*a] before the [*/] test, so the comment
    stays open whatever [b] holds; when no stripped line starts with
    [/*] or contains [//] the words are exactly [contents.split()], so a
    block comment that does not start its line reaches the tokenizer
    word by word (a source without a slash is such a source);
    [load_file] raises [NameError] on every readable file. *)

From S2P Require Import Prelude PyStr Tables Tokenizer.
Local Open Scope string_scope.
Local Open Scope result_scope.

Module Loader.

Import JackTokenizer.

(** [open(name, 'r').read()]: text mode reads with universal newlines:
    ["\r\n"] and a lone ["\r"] both become ["\n"]. *)
Fixpoint universal_newlines (s : string) : string :=
  match s with
  | EmptyString => EmptyString
  | String c s' =>
      if Ascii.eqb c "013" then
        match s' with
        | String d s'' =>
            if Ascii.eqb d "010" then String "010" (universal_newlines s'')
            else String "010" (universal_newlines s')
        | EmptyString => String "010" EmptyString
        end
      else String c (universal_newlines s')
  end.

(** The file store: a missing file raises [OSError]. *)
Definition read_file (fs : gmap string string) (name : string) : result string :=
  match fs !! name with Some s => Ok (universal_newlines s) | None => Raise OSError end.

(** Line 1 imports only [os]: [deque] is not a bound name. *)
Definition deque_imported : bool := false.

(** [deque(words)]. *)
Definition py_deque (words : list string) : result (list string) :=
  if deque_imported then Ok words else Raise NameError.

(** Lines 122-124: split at newlines, strip, cut at the first [//]. *)
Definition clean_lines (contents : string) : list string :=
  map (split_head "//") (map strip (split_char "010" contents)).

(** Lines 125-135: the [for] loop over the lines with the flag
    [in_comment]; [start] is [line[:2]] and [end] is [line[-2:]]. *)
Fixpoint blank_comments (in_comment : bool) (lines : list string) : list string :=
  match lines with
  | [] => []
  | line :: rest =>
      let start := slice_to line 2 in
      let end_ := slice_from line (String.length line - 2) in
      let in1 := if String.eqb start "/*" then true else in_comment in
      let out := if in1 then "" else line in
      let in2 := if String.eqb start "*/" || String.eqb end_ "*/" then false else in1 in
      out :: blank_comments in2 rest
  end.

(** Lines 136-139: split every line at whitespace, keep non-empty words. *)
Definition load_words (contents : string) : list string :=
  List.filter (fun w => negb (String.eqb w ""))
    (flat_map split_ws (blank_comments false (clean_lines contents))).

(** [load_file] (lines 119-140). *)
Definition load_file (fs : gmap string string) (jack_filename : string) : result (list string) :=
  let* contents := read_file fs jack_filename in
  py_deque (load_words contents).

(** ** The words are fragments *)

(** C24 The words of any source text satisfy the tokenizer's queue
    invariant: non-empty and free of whitespace, as [advance] needs. *)
Theorem load_words_queue_ok contents : queue_ok (load_words contents).
Proof.
  unfold load_words, queue_ok. apply Forall_forall. intros w Hw%list_elem_of_In.
  apply filter_In in Hw as [Hw Hne]. apply in_flat_map in Hw as (line & _ & Hw).
  pose proof (split_ws_no_space line) as Hall. rewrite Forall_forall in Hall.
  unfold fragment_ok. rewrite Hne. by apply Hall, list_elem_of_In.
Qed.

(** ** The block-comment pass *)

(** A stripped line with no comment syntax: no [//] and not starting
    with [/*]. *)
Definition plain_line (l : string) : bool :=
  negb (py_contains "//" l) && negb (String.eqb (slice_to l 2) "/*").

(** [start == '*/' or end == '*/'] on a line. *)
Definition closes_comment (line : string) : bool :=
  String.eqb (slice_to line 2) "*/" || String.eqb (slice_from line (String.length line - 2)) "*/".

(** C26 Once inside a block comment, every line is blanked until a line
    that starts or ends with [*/]: the only exit from the comment state
    of lines 125-135. *)
Theorem blank_comments_inside lines :
  Forall (fun l => closes_comment l = false) lines ->
  blank_comments true lines = map (fun _ => "") lines.
Proof.
  induction 1 as [|l lines Hl _ IH]; [reflexivity|]. cbn [blank_comments map].
  unfold closes_comment in Hl. rewrite Hl. destruct (String.eqb (slice_to l 2) "/*"); by rewrite IH.
Qed.

Lemma blank_comments_inside_witness :
  blank_comments true ["class Main {"; "}"] = [""; ""].
Proof. apply blank_comments_inside. repeat constructor. Defined.

(** ** Lines without comment syntax *)

Lemma filter_nonempty_id l :
  Forall (fun w => w <> "") l -> List.filter (fun w => negb (String.eqb w "")) l = l.
Proof.
  induction 1 as [|w l Hw _ IH]; [done|]. cbn [List.filter].
  destruct (String.eqb_spec w ""); [done|]. simpl. by rewrite IH.
Qed.

(** Only a line that starts with [/*] opens a block comment: the pass
    keeps every line when none does. *)
Lemma blank_comments_no_open lines :
  Forall (fun l => String.eqb (slice_to l 2) "/*" = false) lines -> blank_comments false lines = lines.
Proof.
  induction 1 as [|l lines Hl _ IH]; [done|]. cbn [blank_comments]. rewrite Hl.
  destruct (_ || _); cbv iota; by rewrite IH.
Qed.

Lemma flat_map_split_ws_strip lines :
  flat_map split_ws (map strip lines) = flat_map split_ws lines.
Proof. induction lines as [|l lines IH]; [done|]. cbn [map flat_map]. by rewrite split_ws_strip, IH. Qed.

(** When no stripped line contains [//] or starts with [/*], the comment
    passes of lines 124-135 change nothing. *)
Lemma comment_passes_plain contents :
  Forall (fun l => plain_line l = true) (map strip (split_char "010" contents)) ->
  blank_comments false (clean_lines contents) = map strip (split_char "010" contents).
Proof.
  intros Hs. unfold clean_lines.
  assert (map (split_head "//") (map strip (split_char "010" contents))
          = map strip (split_char "010" contents)) as ->.
  { rewrite <- (map_id (map strip _)) at 2. apply map_ext_Forall.
    eapply Forall_impl; [exact Hs|]. intros l [Hc _]%andb_prop.
    apply split_head_no_contains. by apply negb_true_iff in Hc. }
  apply blank_comments_no_open. eapply Forall_impl; [exact Hs|].
  intros l [_ Hl]%andb_prop. by apply negb_true_iff in Hl.
Qed.

Lemma no_slash_plain l : str_forallb no_slash l = true -> plain_line l = true.
Proof.
  intros Hl. unfold plain_line. rewrite py_contains_no_slash by done. cbn [negb andb].
  destruct (String.eqb_spec (slice_to l 2) "/*") as [E|]; [|done].
  pose proof (str_forallb_slice_to _ _ 2 Hl) as Hs. by rewrite E in Hs.
Qed.

(** On a source without a slash the comment passes change nothing. *)
Lemma comment_passes_id contents :
  str_forallb no_slash contents = true ->
  blank_comments false (clean_lines contents) = map strip (split_char "010" contents).
Proof.
  intros Hc. apply comment_passes_plain, Forall_map.
  eapply Forall_impl; [exact (split_char_forallb _ "010" _ Hc)|].
  intros l Hl. by apply no_slash_plain, str_forallb_strip.
Qed.

(** The words of the stripped lines are the words of the text. *)
Lemma words_of_lines contents :
  List.filter (fun w => negb (String.eqb w "")) (flat_map split_ws (map strip (split_char "010" contents)))
  = split_ws contents.
Proof.
  rewrite flat_map_split_ws_strip, (flat_map_split_ws_concat "010"), split_char_join
    by (reflexivity || apply split_char_nonempty).
  apply filter_nonempty_id, split_ws_aux_nonempty.
Qed.



(** C28 Block comments that do not start their line are kept: on any
    source where no stripped line starts with [/*] or contains [//], the
    loader keeps every word of the text, in order, so a comment
    [/* c */] written after code, or over several lines none of which
    starts with [/*], reaches the tokenizer as the fragments [/*], [c],
    [*/]. *)
Theorem load_words_plain_lines contents :
  Forall (fun l => plain_line l = true) (map strip (split_char "010" contents)) ->
  load_words contents = split_ws contents.
Proof. intros Hc. unfold load_words. by rewrite comment_passes_plain, words_of_lines. Qed.

Lemma load_words_plain_lines_witness :
  load_words "let x = 1; /* c */" = split_ws "let x = 1; /* c */".
Proof. apply load_words_plain_lines. vm_compute. repeat constructor. Defined.

(** ** A [//] inside a block comment *)

Lemma slice_to_comment a : slice_to ("/*" ++ a) 2 = "/*".
Proof. reflexivity. Qed.

Lemma split_head_comment_open x : split_head "//" ("/*" ++ x) = "/*" ++ split_head "//" x.
Proof. reflexivity. Qed.

(** The line [/*a//b] is cleaned to [/*a] (lines 123-124). *)
Lemma clean_comment_line a b :
  str_forallb no_slash a = true -> split_head "//" (strip ("/*" ++ a ++ "//" ++ b)) = "/*" ++ a.
Proof.
  intros Ha. unfold strip.
  assert (lstrip ("/*" ++ a ++ "//" ++ b) = "/*" ++ a ++ "//" ++ b) as -> by reflexivity.
  assert ("/*" ++ a ++ "//" ++ b = (("/*" ++ a) ++ "/") ++ String "/" b) as ->
    by (rewrite <- !append_assoc; reflexivity).
  rewrite rstrip_app_nonspace by reflexivity. rewrite <- !append_assoc.
  change ("/" ++ String "/" (rstrip b)) with ("//" ++ rstrip b).
  rewrite split_head_comment_open. by rewrite split_head_cut.
Qed.

(** The cleaned line [/*a] does not close the comment it opens. *)
Lemma comment_line_open a : str_forallb no_slash a = true -> closes_comment ("/*" ++ a) = false.
Proof.
  intros Ha. unfold closes_comment. rewrite slice_to_comment. cbn [String.eqb orb].
  destruct a as [|x [|y a']]; [reflexivity| |].
  - cbn in Ha. destruct (String.eqb_spec (slice_from ("/*" ++ String x "") (String.length ("/*" ++ String x "") - 2)) "*/") as [E|]; [|done].
    cbn in E. injection E as ->. discriminate Ha.
  - rewrite length_append.
    replace (String.length "/*" + String.length (String x (String y a')) - 2)
      with (String.length "/*" + (String.length (String x (String y a')) - 2)) by (simpl; lia).
    rewrite slice_from_app_add.
    destruct (String.eqb_spec (slice_from (String x (String y a')) (String.length (String x (String y a')) - 2)) "*/") as [E|]; [|done].
    pose proof (str_forallb_slice_from _ _ (String.length (String x (String y a')) - 2) Ha) as Hs.
    by rewrite E in Hs.
Qed.

(** C27 A [//] inside a block comment line keeps the comment open: for
    every line [/*a//b] ([a] without a slash), lines 123-124 cut it to
    [/*a] before the [*/] test of line 134, so whatever [b] holds, its
    [*/] included, the line is blanked and the next line is still inside
    the comment. *)
Theorem comment_open_after_slashes a b rest :
  str_forallb (fun c => no_slash c && no_newline c) a = true -> str_forallb no_newline b = true ->
  blank_comments false (clean_lines ("/*" ++ a ++ "//" ++ b ++ String "010" rest))
  = "" :: blank_comments true (clean_lines rest).
Proof.
  intros Ha Hb.
  assert (str_forallb no_slash a = true) as Ha1
    by (eapply str_forallb_impl; [|exact Ha]; intros c [? _]%andb_prop; done).
  assert (str_forallb no_newline a = true) as Ha2
    by (eapply str_forallb_impl; [|exact Ha]; intros c [_ ?]%andb_prop; done).
  unfold clean_lines.
  assert ("/*" ++ a ++ "//" ++ b ++ String "010" rest = ("/*" ++ a ++ "//" ++ b) ++ String "010" rest)
    as -> by (by rewrite <- !append_assoc).
  rewrite split_char_app_sep.
  2: { rewrite !str_forallb_app. unfold no_newline in *. by rewrite Ha2, Hb. }
  cbn [map blank_comments]. rewrite clean_comment_line, slice_to_comment by done.
  pose proof (comment_line_open a Ha1) as Hcl. unfold closes_comment in Hcl.
  rewrite slice_to_comment in Hcl. cbn zeta. rewrite Hcl. reflexivity.
Qed.

Lemma comment_open_after_slashes_witness :
  blank_comments false (clean_lines ("/*" ++ "* see http:" ++ "//" ++ "x.org */" ++ String "010" "class Main {"))
  = "" :: blank_comments true (clean_lines "class Main {").
Proof. apply comment_open_after_slashes; reflexivity. Defined.

(** ** [load_file] *)

(** C29 [load_file] never returns: on a readable file it computes the
    words and then raises [NameError] at [deque(words)], since [deque]
    is not imported; on a missing file [open] raises [OSError]. *)
Theorem load_file_raises fs name :
  load_file fs name = Raise (if bool_decide (is_Some (fs !! name)) then NameError else OSError).
Proof. unfold load_file, read_file. by destruct (fs !! name). Qed.

End Loader.
