(* ===== verification/Emitter.v ===== *)
(** * [CompilationEngine]: the token writer

    The engine object of lines 160-186 is the record [engine]: the name
    of the file [self.xml] refers to, whether that file is still open,
    and [self.indent] as an option ([None]: the attribute was never
    set).  The file system is a store [files] threaded through [stm],
    so that what was written survives an exception.  [write] is lines
    166-167, [escape] the three [replace] calls of lines 170-172,
    [write_token] lines 169-175, [updent]/[downdent] lines 182-186,
    [close] lines 177-180, and [ce_init] the constructor of lines
    161-165 with its [with] block ([with_open]).

    The interface [TokenWriter] is what the driver's loop needs of a
    writer: [write_token], [close], the file it writes to, and the law
    that writing a token touches no other file.  [CompilationEngine]
    is an instance.

    Theorems: [escape] is the one-pass XML escaping and is undone by
    entity decoding; [write_token] appends exactly one formatted line;
    the constructor always raises [AttributeError] (the indentation is
    never initialised) and leaves [<tokens>] in a closed file; the
    [with] block closes the file, so even an engine built with an
    indentation could not write; the output name of [Main.jack] is
    [Main.T.xml]. *)

From S2P Require Import Prelude PyStr.
Local Open Scope string_scope.
Local Open Scope stm_scope.

(** The file system: file name to contents. *)
Abbreviation files := (gmap string string).

Module CompilationEngine.

Record engine : Type := mk_engine {
  xml_name : string;
  xml_open : bool;
  indent : option Z
}.

Definition file_contents (fs : files) (name : string) : string :=
  default "" (fs !! name).

Definition newline : string := String "010" "".

(** [self.xml.write(content)] (lines 166-167): [ValueError] once the
    file is closed. *)
Definition write (content : string) (e : engine) : stm files unit :=
  fun fs =>
    if xml_open e
    then (<[xml_name e := file_contents fs (xml_name e) ++ content]> fs, Ok tt)
    else (fs, Raise ValueError).

(** Lines 170-172, in the order of the code. *)
Definition escape (token : string) : string :=
  replace_char ">" "&gt;" (replace_char "<" "&lt;" (replace_char "&" "&amp;" token)).

(** [' ' * n]: the empty string for [n <= 0]. *)
Definition spaces (n : Z) : string := string_of_list_ascii (repeat " "%char (Z.to_nat n)).

(** Reading [self.indent]: [AttributeError] when it was never set. *)
Definition get_indent (e : engine) : result Z :=
  match indent e with Some n => Ok n | None => Raise AttributeError end.

(** [write_token] (lines 169-175). *)
Definition write_token (token_type token : string) (e : engine) : stm files unit :=
  let token := escape token in
  let! n := slift (get_indent e) in
  let! _ := write (spaces n ++ "<" ++ py_lower token_type ++ "> ") e in
  let! _ := write token e in
  write (" </" ++ py_lower token_type ++ ">" ++ newline) e.

(** The line [write_token] renders: [n] spaces, the lower-cased tag,
    the escaped token and the closing tag (lines 173-175 together). *)
Definition token_line (n : Z) (ty v : string) : string :=
  spaces n ++ "<" ++ py_lower ty ++ "> " ++ escape v ++ " </" ++ py_lower ty ++ ">" ++ newline.

(** [updent] and [downdent] (lines 182-186). *)
Definition updent (e : engine) : result engine :=
  match indent e with
  | Some n => Ok {| xml_name := xml_name e; xml_open := xml_open e; indent := Some (n + 2)%Z |}
  | None => Raise AttributeError
  end.

Definition downdent (e : engine) : result engine :=
  match indent e with
  | Some n => Ok {| xml_name := xml_name e; xml_open := xml_open e; indent := Some (n - 2)%Z |}
  | None => Raise AttributeError
  end.

Definition close_file (e : engine) : engine :=
  {| xml_name := xml_name e; xml_open := false; indent := indent e |}.

(** [close] (lines 177-180). *)
Definition close (e : engine) : stm files engine :=
  let! e1 := slift (downdent e) in
  let! _ := write "</tokens>" e1 in
  sret (close_file e1).

(** [jack_filename[:-4] + 'T.xml'] (line 162). *)
Definition output_name (jack_filename : string) : string :=
  slice_to jack_filename (String.length jack_filename - 4) ++ "T.xml".

(** [with open(name, 'w') as self.xml: body]: the file is created empty,
    the body runs with it open, and it is closed when the block is left,
    normally or by an exception. *)
Definition with_open (name : string) (e : engine) (body : engine -> stm files engine)
    : stm files engine :=
  fun fs =>
    let '(fs', r) := body {| xml_name := name; xml_open := true; indent := indent e |}
                          (<[name := ""]> fs) in
    (fs', rmap close_file r).

(** The object before [__init__] runs: no attribute set. *)
Definition fresh_engine : engine := {| xml_name := ""; xml_open := false; indent := None |}.

(** [__init__] (lines 161-165). *)
Definition ce_init (jack_filename : string) : stm files engine :=
  with_open (output_name jack_filename) fresh_engine
    (fun e => let! _ := write ("<tokens>" ++ newline) e in slift (updent e)).

(** ** Reference definitions for the escaping

    [escape1] escapes in one pass, character by character, as XML
    requires; [unescape] decodes the three entities. *)

Definition escape_char (c : ascii) : string :=
  if Ascii.eqb c "&" then "&amp;"
  else if Ascii.eqb c "<" then "&lt;"
  else if Ascii.eqb c ">" then "&gt;"
  else String c "".

Fixpoint escape1 (s : string) : string :=
  match s with
  | EmptyString => EmptyString
  | String c s' => escape_char c ++ escape1 s'
  end.

Fixpoint unescape (s : string) : string :=
  match s with
  | EmptyString => EmptyString
  | String c r =>
      if Ascii.eqb c "&" then
        match r with
        | String c1 (String c2 (String c3 r3)) =>
            if Ascii.eqb c1 "l" && Ascii.eqb c2 "t" && Ascii.eqb c3 ";"
            then String "<" (unescape r3)
            else if Ascii.eqb c1 "g" && Ascii.eqb c2 "t" && Ascii.eqb c3 ";"
            then String ">" (unescape r3)
            else match r3 with
                 | String c4 r4 =>
                     if Ascii.eqb c1 "a" && Ascii.eqb c2 "m" && Ascii.eqb c3 "p"
                        && Ascii.eqb c4 ";"
                     then String "&" (unescape r4)
                     else String c (unescape r)
                 | EmptyString => String c (unescape r)
                 end
        | _ => String c (unescape r)
        end
      else String c (unescape r)
  end.

(** No raw [<] or [>]. *)
Definition no_angle (c : ascii) : bool :=
  negb (Ascii.eqb c "<") && negb (Ascii.eqb c ">").

(** ** Lemmas on escaping *)

Lemma escape_app s t : escape (s ++ t) = escape s ++ escape t.
Proof. unfold escape. by rewrite !replace_char_app. Qed.

Lemma escape_single c : escape (String c "") = escape_char c.
Proof. destruct c as [[] [] [] [] [] [] [] []]; reflexivity. Qed.

Lemma escape_cons c s : escape (String c s) = escape_char c ++ escape s.
Proof. change (String c s) with (String c "" ++ s). by rewrite escape_app, escape_single. Qed.

Lemma escape_char_no_angle c : str_forallb no_angle (escape_char c) = true.
Proof.
  unfold escape_char.
  destruct (Ascii.eqb_spec c "&"); [reflexivity|].
  destruct (Ascii.eqb_spec c "<"); [reflexivity|].
  destruct (Ascii.eqb_spec c ">"); [reflexivity|].
  rewrite str_forallb_single. unfold no_angle.
  by destruct (Ascii.eqb_spec c "<"), (Ascii.eqb_spec c ">").
Qed.

Lemma unescape_escape_char c t : unescape (escape_char c ++ t) = String c (unescape t).
Proof.
  unfold escape_char.
  destruct (Ascii.eqb_spec c "&") as [->|Ha]; [reflexivity|].
  destruct (Ascii.eqb_spec c "<") as [->|Hl]; [reflexivity|].
  destruct (Ascii.eqb_spec c ">") as [->|Hg]; [reflexivity|].
  rewrite append_cons, append_nil_l. cbn [unescape].
  by destruct (Ascii.eqb_spec c "&").
Qed.

Lemma length_escape_char c :
  1 <= String.length (escape_char c) <= 5.
Proof.
  unfold escape_char.
  destruct (Ascii.eqb c "&"), (Ascii.eqb c "<"), (Ascii.eqb c ">"); simpl; lia.
Qed.

(** ** Lemmas on writing *)

Lemma file_contents_insert fs name v : file_contents (<[name := v]> fs) name = v.
Proof. unfold file_contents. by simpl_map. Qed.

Lemma write_open content e fs :
  xml_open e = true ->
  write content e fs
  = (<[xml_name e := file_contents fs (xml_name e) ++ content]> fs, Ok tt).
Proof. unfold write. by intros ->. Qed.

Lemma write_closed content e fs :
  xml_open e = false -> write content e fs = (fs, Raise ValueError).
Proof. unfold write. by intros ->. Qed.

(** Writing touches only the engine's file. *)
Lemma write_frame content e fs name :
  name <> xml_name e -> (write content e fs).1 !! name = fs !! name.
Proof.
  intros Hne. unfold write. destruct (xml_open e); cbn [fst]; [|done].
  by erewrite lookup_insert_ne by congruence.
Qed.

(** Two successive writes to an open file append both texts. *)
Lemma write_write c1 c2 e fs :
  xml_open e = true ->
  sbind (write c1 e) (fun _ => write c2 e) fs = write (c1 ++ c2) e fs.
Proof.
  intros Ho. unfold sbind. rewrite !write_open by done.
  rewrite file_contents_insert, append_assoc. f_equal. by erewrite insert_insert_eq.
Qed.

(** A write to an open file, followed by more work. *)
Lemma write_then {A} content e (k : unit -> stm files A) fs :
  xml_open e = true ->
  sbind (write content e) k fs
  = k tt (<[xml_name e := file_contents fs (xml_name e) ++ content]> fs).
Proof. intros Ho. apply sbind_Ok. by apply write_open. Qed.

Lemma slift_then {A B} (a : A) (k : A -> stm files B) fs :
  sbind (slift (Ok a)) k fs = k a fs.
Proof. reflexivity. Qed.

Lemma get_indent_Some e n : indent e = Some n -> get_indent e = Ok n.
Proof. unfold get_indent. by intros ->. Qed.

Lemma with_open_result name e body fs :
  with_open name e body fs
  = ((body {| xml_name := name; xml_open := true; indent := indent e |} (<[name := ""]> fs)).1,
     rmap close_file (body {| xml_name := name; xml_open := true; indent := indent e |}
                         (<[name := ""]> fs)).2).
Proof. unfold with_open. by destruct (body _ _). Qed.

(** The three branches of [write_token]. *)
Lemma write_token_no_indent ty v e fs :
  indent e = None -> write_token ty v e fs = (fs, Raise AttributeError).
Proof. unfold write_token, get_indent. by intros ->. Qed.

Lemma write_token_closed ty v e n fs :
  indent e = Some n -> xml_open e = false -> write_token ty v e fs = (fs, Raise ValueError).
Proof.
  intros Hi Ho. unfold write_token. cbv zeta.
  rewrite (get_indent_Some _ _ Hi), slift_then. apply sbind_Raise. by apply write_closed.
Qed.

Lemma write_token_open ty v e n fs :
  indent e = Some n -> xml_open e = true ->
  write_token ty v e fs
  = (<[xml_name e := file_contents fs (xml_name e) ++ token_line n ty v]> fs, Ok tt).
Proof.
  intros Hi Ho. unfold write_token, token_line. cbv zeta.
  rewrite (get_indent_Some _ _ Hi), slift_then, !write_then, write_open by done.
  rewrite !file_contents_insert, !append_assoc. f_equal.
  by erewrite !insert_insert_eq.
Qed.

Lemma close_open e n fs :
  indent e = Some n -> xml_open e = true ->
  close e fs
  = (<[xml_name e := file_contents fs (xml_name e) ++ "</tokens>"]> fs,
     Ok {| xml_name := xml_name e; xml_open := false; indent := Some (n - 2)%Z |}).
Proof. intros Hi Ho. unfold close, downdent. rewrite Hi. by rewrite slift_then, write_then. Qed.

(** ** Properties of the engine *)

(** C16 Equivalence: the three successive [replace] calls of
    [write_token] compute the one-pass XML escaping [escape1]; the
    order [&] first is what makes them agree. *)
Theorem escape_one_pass s : escape s = escape1 s.
Proof.
  induction s as [|c s IH]; [done|].
  by rewrite escape_cons, IH.
Qed.

(** C17 Round trip: decoding the entities of an escaped token gives
    the token back, so escaping loses nothing. *)
Theorem escape_roundtrip s : unescape (escape s) = s.
Proof.
  induction s as [|c s IH]; [done|].
  by rewrite escape_cons, unescape_escape_char, IH.
Qed.

(** C18 Safety: an escaped token contains no raw [<] or [>]. *)
Theorem escape_no_raw_angle s : str_forallb no_angle (escape s) = true.
Proof.
  induction s as [|c s IH]; [done|].
  by rewrite escape_cons, str_forallb_app, escape_char_no_angle, IH.
Qed.

(** C19 Bounds: escaping never shortens a token and at most
    quintuples its length. *)
Theorem escape_length_bounds s :
  String.length s <= String.length (escape s) <= 5 * String.length s.
Proof.
  induction s as [|c s IH]; [simpl; lia|].
  rewrite escape_cons, length_append.
  pose proof (length_escape_char c). simpl. lia.
Qed.

(** C15 Functional behaviour of [write_token], every branch: without
    an indentation it raises [AttributeError] and writes nothing; on a
    closed file it raises [ValueError] and writes nothing; otherwise
    it appends exactly one line, [n] spaces, the lower-cased tag, the
    escaped token and the closing tag, to the engine's file. *)
Theorem write_token_spec ty v e fs :
  write_token ty v e fs =
  match indent e with
  | None => (fs, Raise AttributeError)
  | Some n =>
      if xml_open e
      then (<[xml_name e := file_contents fs (xml_name e)
               ++ (spaces n ++ "<" ++ py_lower ty ++ "> " ++ escape v
                   ++ " </" ++ py_lower ty ++ ">" ++ newline)]> fs, Ok tt)
      else (fs, Raise ValueError)
  end.
Proof.
  destruct (indent e) as [n|] eqn:Hi; [|by apply write_token_no_indent].
  destruct (xml_open e) eqn:Ho.
  - by apply write_token_open.
  - by eapply write_token_closed.
Qed.

(** C20 Error path of the constructor: [__init__] creates the output
    file, writes the header [<tokens>] into it, and then always raises
    [AttributeError] at [self.indent += 2], since [self.indent] is
    never initialised. *)
Theorem ce_init_raises jack_filename fs :
  ce_init jack_filename fs
  = (<[output_name jack_filename := "<tokens>" ++ newline]> fs, Raise AttributeError).
Proof.
  unfold ce_init. rewrite with_open_result, write_then by done.
  cbn -[insert file_contents]. rewrite file_contents_insert, append_nil_l.
  f_equal. by erewrite insert_insert_eq.
Qed.

(** C21 Safety of the [with] block: whatever its body does, an engine
    that leaves the [with open(...) as self.xml] block of [__init__]
    holds a closed file, so every later [write_token] fails and
    changes no file ([ValueError], or [AttributeError] first when the
    indentation is unset). *)
Theorem with_block_closes name e body fs fs' e' ty v :
  with_open name e body fs = (fs', Ok e') ->
  write_token ty v e' fs'
  = (fs', Raise (match indent e' with Some _ => ValueError | None => AttributeError end)).
Proof.
  unfold with_open. destruct (body _ _) as [fs1 r].
  destruct r as [e1| |]; cbn [rmap rbind]; intros [= -> <-]; [].
  destruct (indent (close_file e1)) as [n|] eqn:Hi.
  - by eapply write_token_closed.
  - by apply write_token_no_indent.
Qed.

(** Witness: an engine that leaves the block with an indentation of 2
    still cannot write. *)
Lemma with_block_closes_witness :
  with_open "Main.T.xml" fresh_engine
    (fun e => sret {| xml_name := xml_name e; xml_open := true; indent := Some 2%Z |}) ∅
  = (<["Main.T.xml" := ""]> ∅,
     Ok {| xml_name := "Main.T.xml"; xml_open := false; indent := Some 2%Z |})
  /\ write_token "keyword" "class"
       {| xml_name := "Main.T.xml"; xml_open := false; indent := Some 2%Z |}
       (<["Main.T.xml" := ""]> ∅)
     = (<["Main.T.xml" := ""]> ∅, Raise ValueError).
Proof.
  split; [reflexivity|].
  apply (with_block_closes "Main.T.xml" fresh_engine
           (fun e => sret {| xml_name := xml_name e; xml_open := true; indent := Some 2%Z |}) ∅).
  reflexivity.
Defined.

(** C22 Functional behaviour of [close]: it lowers the indentation by
    two, appends the footer [</tokens>] and closes the file; it raises
    [AttributeError] without an indentation and [ValueError] on a
    closed file, writing nothing. *)
Theorem close_spec e fs :
  close e fs =
  match indent e with
  | None => (fs, Raise AttributeError)
  | Some n =>
      if xml_open e
      then (<[xml_name e := file_contents fs (xml_name e) ++ "</tokens>"]> fs,
            Ok {| xml_name := xml_name e; xml_open := false; indent := Some (n - 2)%Z |})
      else (fs, Raise ValueError)
  end.
Proof.
  destruct (indent e) as [n|] eqn:Hi; [|unfold close, downdent; by rewrite Hi].
  destruct (xml_open e) eqn:Ho; [by apply close_open|].
  unfold close, downdent. rewrite Hi, slift_then. apply sbind_Raise. by apply write_closed.
Qed.

(** C23 The output name: for [Main.jack] the slice [[:-4]] drops only
    [jack], so the output file is [Main.T.xml], not [MainT.xml]. *)
Theorem output_name_jack b : output_name (b ++ ".jack") = b ++ ".T.xml".
Proof.
  unfold output_name. rewrite length_append.
  replace (String.length b + String.length ".jack" - 4) with (String.length b + 1) by (simpl; lia).
  rewrite slice_to_app_add, <- append_assoc. reflexivity.
Qed.

End CompilationEngine.

(** ** The interface the driver uses

    A token writer renders one token of a given tag into its target
    file and can be closed; writing a token changes no other file. *)

Class TokenWriter (W : Type) := {
  tw_write_token : string -> string -> W -> stm files unit;
  tw_close : W -> stm files W;
  tw_target : W -> string;
  tw_frame : forall ty v w fs name, name <> tw_target w ->
    (tw_write_token ty v w fs).1 !! name = fs !! name
}.

Section EngineWriter.
Import CompilationEngine.

Lemma write_token_frame ty v e fs name :
  name <> xml_name e -> (write_token ty v e fs).1 !! name = fs !! name.
Proof.
  intros Hne. destruct (indent e) as [n|] eqn:Hi; [|by rewrite write_token_no_indent].
  destruct (xml_open e) eqn:Ho; [|by erewrite write_token_closed].
  erewrite write_token_open by done. cbn [fst].
  by erewrite lookup_insert_ne by congruence.
Qed.

#[export] Instance engine_writer : TokenWriter engine := {
  tw_write_token := write_token;
  tw_close := close;
  tw_target := xml_name;
  tw_frame := write_token_frame
}.

End EngineWriter.
