(* ===== verification/Driver.v ===== *)
(** * [JackAnalyzer]: the driver

    [JackAnalyzer.__init__] (lines 3-6) as [jack_analyzer]: the file
    name test of [parse_files] (lines 8-12), then [analyze] (lines
    14-29) for each file.  [analyze] builds the tokenizer
    ([jack_tokenizer], [JackTokenizer.__init__] of lines 32-38, which
    calls [load_file]) and the engine ([CompilationEngine.ce_init]),
    runs the loop of lines 17-28 ([analyze_loop]) and closes the
    engine.  The loop is written against the [TokenWriter] interface,
    so its theorems hold for every writer; [analyze] instantiates it
    with [CompilationEngine].

    Theorems: the loop is the fold of [write_token] over the token
    stream [tokens] (a refinement of the loop by the stream), checked
    on the tokens of [let x = 1;]; and the program as written never
    produces output: [analyze] raises [NameError] or [OSError] before
    the engine is built, and a name without [.jack] makes the [for]
    loop of line 5 raise [TypeError].  Composed with the loader: on a
    source without comments or strings the token values, joined, are
    the source without its whitespace. *)

From S2P Require Import Prelude PyStr Tables Tokenizer Tokens Loader Emitter.
Local Open Scope string_scope.
Local Open Scope stm_scope.

Module JackAnalyzer.
Import JackTokenizer TokenStream Loader CompilationEngine.

(** [JackTokenizer.__init__] (lines 32-38). *)
Definition jack_tokenizer (fs : files) (jack_filename : string) : result tokenizer :=
  rmap (fun q => {| jack := q; curr_token := None; token_type := None |})
       (load_file fs jack_filename).

(** [parse_files] (lines 8-12): [None] when the name lacks [.jack]. *)
Definition parse_files (file_path : string) : option (list string) :=
  if py_contains ".jack" file_path then Some [file_path] else None.

(** The tag written for each token type (lines 19-28). *)
Definition tag (ty : Tables.token_type) : string :=
  match ty with
  | KEYWORD => "keyword"
  | SYMBOL => "symbol"
  | INT_CONSTANT => "integerConstant"
  | STRING_CONSTANT => "stringConstant"
  | IDENTIFIER => "identifier"
  end.

Section Loop.
Context `{TokenWriter W}.

(** The [if]/[elif] chain of lines 19-28.  [str(None)] is ['None'];
    any other [None] token fails at [token.replace]. *)
Definition dispatch (t : tokenizer) (w : W) : stm files unit :=
  match token_type t with
  | Some ty =>
      match curr_token t with
      | Some v => tw_write_token (tag ty) v w
      | None =>
          match ty with
          | INT_CONSTANT => tw_write_token (tag INT_CONSTANT) "None" w
          | _ => sraise AttributeError
          end
      end
  | None => sret tt
  end.

(** The [while] loop of lines 17-28. *)
Fixpoint analyze_loop (fuel : nat) (t : tokenizer) (w : W) : stm files unit :=
  match fuel with
  | O => fun fs => (fs, OutOfFuel)
  | S f =>
      if has_more_tokens t then
        let! t' := slift (advance fuel t) in
        let! _ := dispatch t' w in
        analyze_loop f t' w
      else sret tt
  end.

(** The writes of a token stream, in order. *)
Fixpoint write_all (toks : list token) (w : W) : stm files unit :=
  match toks with
  | [] => sret tt
  | (ty, v) :: toks' => let! _ := tw_write_token (tag ty) v w in write_all toks' w
  end.

End Loop.

(** Lines 17-29: the loop, then [ce.close()]. *)
Definition analyze_body (fuel : nat) (t : tokenizer) (ce : engine) : stm files unit :=
  let! _ := analyze_loop fuel t ce in
  let! _ := close ce in
  sret tt.

(** [analyze] (lines 14-29). *)
Definition analyze (fuel : nat) (jack_file : string) : stm files unit :=
  let! tokenizer := sread (fun fs => jack_tokenizer fs jack_file) in
  let! ce := ce_init jack_file in
  analyze_body fuel tokenizer ce.

(** [JackAnalyzer.__init__] (lines 3-6): iterating over the [None] of
    [parse_files] raises [TypeError]. *)
Definition jack_analyzer (fuel : nat) (file_path : string) : stm files unit :=
  match parse_files file_path with
  | Some jack_files => for_each (analyze fuel) jack_files
  | None => sraise TypeError
  end.

(** The main block (lines 189-192). *)
Definition main (fuel : nat) : stm files unit :=
  jack_analyzer fuel "ExpressionlessSquare.jack".

(** ** Lemmas on the loop *)

Section LoopFacts.
Context `{TokenWriter W}.

Lemma analyze_loop_S f t (w : W) :
  analyze_loop (S f) t w =
  if has_more_tokens t then
    let! t' := slift (advance (S f) t) in
    let! _ := dispatch t' w in
    analyze_loop f t' w
  else sret tt.
Proof. reflexivity. Qed.

Lemma sbind_ext {A B} (m : stm files A) (k1 k2 : A -> stm files B) fs :
  (forall a fs', k1 a fs' = k2 a fs') -> sbind m k1 fs = sbind m k2 fs.
Proof. intros Hk. unfold sbind. destruct (m fs) as [fs' []]; auto. Qed.

(** The loop is the fold of the writer over the token stream. *)
Lemma analyze_loop_write_all fuel t (w : W) toks fs :
  tokens fuel t = Ok toks -> analyze_loop fuel t w fs = write_all toks w fs.
Proof.
  revert t toks fs. induction fuel as [|f IH]; intros t toks fs Ht; [discriminate|].
  cbn [tokens] in Ht. rewrite analyze_loop_S.
  destruct (has_more_tokens t); [|by apply Ok_inj in Ht as <-].
  apply rbind_Ok_inv in Ht as (t1 & Ha & Ht). apply rbind_Ok_inv in Ht as (rest & Hrest & Ht).
  apply Ok_inj in Ht as <-. rewrite Ha, slift_then.
  destruct (advance_Ok_some _ _ _ Ha) as (ty & v & Hty & Hv).
  unfold dispatch. rewrite Hty, Hv. cbn [write_all].
  apply sbind_ext. intros _ fs'. by apply IH.
Qed.

End LoopFacts.

(** The lines the engine renders for a token stream. *)
Definition token_lines (n : Z) (toks : list token) : string :=
  String.concat "" (map (fun '(ty, v) => token_line n (tag ty) v) toks).

Lemma token_lines_cons n ty v toks :
  token_lines n ((ty, v) :: toks) = token_line n (tag ty) v ++ token_lines n toks.
Proof.
  unfold token_lines. cbn [map]. destruct toks; cbn [map String.concat];
    [by rewrite append_nil_r | by rewrite append_nil_l].
Qed.

Lemma write_all_engine toks e n fs c :
  xml_open e = true -> indent e = Some n -> fs !! xml_name e = Some c ->
  write_all toks e fs = (<[xml_name e := c ++ token_lines n toks]> fs, Ok tt).
Proof.
  intros Ho Hi. revert fs c. induction toks as [|[ty v] toks IH]; intros fs c Hc.
  - cbn. rewrite append_nil_r. f_equal. by erewrite insert_id.
  - cbn [write_all]. rewrite (sbind_Ok _ _ _ _ _ (write_token_open _ _ _ _ _ Hi Ho)).
    unfold file_contents. rewrite Hc. cbn [default from_option].
    rewrite (IH _ (c ++ token_line n (tag ty) v)) by (by simpl_map).
    rewrite token_lines_cons, append_assoc. f_equal. by erewrite insert_insert_eq.
Qed.

(** C13 Functional behaviour of lines 17-29 with the engine: when the
    token stream of the deque is [toks], the loop and [ce.close()]
    append to the engine's open file one rendered line per token, in
    order, and then the footer [</tokens>]. *)
Theorem analyze_body_output fuel t e n toks fs c :
  tokens fuel t = Ok toks -> xml_open e = true -> indent e = Some n ->
  fs !! xml_name e = Some c ->
  analyze_body fuel t e fs
  = (<[xml_name e := c ++ token_lines n toks ++ "</tokens>"]> fs, Ok tt).
Proof.
  intros Ht Ho Hi Hc. unfold analyze_body.
  rewrite (sbind_Ok _ _ _ _ _ (eq_trans (analyze_loop_write_all _ _ _ _ fs Ht)
                                         (write_all_engine _ _ _ _ _ Ho Hi Hc))).
  rewrite (sbind_Ok _ _ _ _ _ (close_open _ _ _ Hi Ho)). cbv beta.
  rewrite file_contents_insert, append_assoc. unfold sret. f_equal.
  by erewrite insert_insert_eq.
Qed.

(** The source [let x = 1;] and an engine as [__init__] would leave it
    if the indentation were set. *)
Definition let_x_1 : tokenizer :=
  {| jack := load_words "let x = 1;"; curr_token := None; token_type := None |}.
Definition engine_2 : engine := {| xml_name := "Main.T.xml"; xml_open := true; indent := Some 2%Z |}.
Definition header_fs : files := <["Main.T.xml" := "<tokens>" ++ newline]> ∅.

Lemma analyze_body_output_witness :
  analyze_body 10 let_x_1 engine_2 header_fs
  = (<["Main.T.xml" := ("<tokens>" ++ newline)
        ++ token_lines 2 [(KEYWORD, "let"); (IDENTIFIER, "x"); (SYMBOL, "=");
                          (INT_CONSTANT, "1"); (SYMBOL, ";")] ++ "</tokens>"]> header_fs, Ok tt).
Proof. apply analyze_body_output; [vm_compute; reflexivity|reflexivity|reflexivity|reflexivity]. Defined.

(** C12 The program never produces output: [analyze] fails at
    [JackTokenizer(jack_file)] before the engine opens its file, with
    [NameError] (deque is not imported) when the source exists and
    [OSError] when it does not, leaving every file unchanged; a name
    without [.jack] makes [for jack_file in None] raise [TypeError]. *)
Theorem jack_analyzer_raises fuel file_path fs :
  jack_analyzer fuel file_path fs
  = (fs, Raise (if py_contains ".jack" file_path
                then if bool_decide (is_Some (fs !! file_path)) then NameError else OSError
                else TypeError)).
Proof.
  unfold jack_analyzer, parse_files. destruct (py_contains ".jack" file_path); [|reflexivity].
  unfold for_each, analyze, sbind, sread, jack_tokenizer, load_file, read_file.
  by destruct (fs !! file_path).
Qed.

(** ** The loader and the tokenizer together *)

(** C14 Composition (round trip): on a source without [/] or double
    quotes, whenever the loop of lines 17-18 over the deque that
    [load_file] builds returns, the values of its tokens, joined in
    order, are the source text with its whitespace removed: the two
    stages together lose, duplicate or reorder no character. *)
Theorem source_tokens_text contents fuel toks :
  str_forallb (fun c => no_slash c && negb (is_quote c)) contents = true ->
  tokens fuel {| jack := load_words contents; curr_token := None; token_type := None |} = Ok toks ->
  tokens_text toks = drop_spaces contents.
Proof.
  intros Hc Ht. unfold load_words in Ht.
  rewrite comment_passes_id, words_of_lines in Ht
    by (eapply str_forallb_impl; [|exact Hc]; intros c [? _]%andb_prop; done).
  assert (Forall (fun s => quote_free s = true) (split_ws contents)) as Hq.
  { apply split_ws_aux_forallb; [done|].
    eapply str_forallb_impl; [|exact Hc]. intros c [_ ?]%andb_prop; done. }
  rewrite (tokens_text_conserved fuel {| jack := split_ws contents; curr_token := None; token_type := None |} _ Hq Ht).
  cbn [jack].
  unfold split_ws. by rewrite concat_split_ws_aux, append_nil_l.
Qed.

Lemma source_tokens_text_witness :
  tokens_text [(KEYWORD, "let"); (IDENTIFIER, "x"); (SYMBOL, "="); (INT_CONSTANT, "1");
               (SYMBOL, ";")] = drop_spaces ("let x = 1;" ++ String "010" "").
Proof.
  apply (source_tokens_text _ 20); vm_compute; reflexivity.
Defined.

End JackAnalyzer.
